(** * lib_todo: the application controller of front-end/assets/script.js

    A shallow embedding of the [TodoApp] class: the controller's fields,
    the part of the document it reads and writes, the remote API as an
    oracle, and every operation as a computation over that world.  One
    operation runs from its first statement to the end of its [finally]
    block; interleavings of overlapping operations are not modelled. *)

From Stdlib Require Import ZArith List String Ascii Bool Lia.
From stdpp Require Import base decidable list strings pretty.
Import ListNotations.

Local Open Scope string_scope.
Local Open Scope list_scope.
Local Open Scope Z_scope.
Local Open Scope nat_scope.

(** ** JavaScript values

    Identifiers, the current project and the current filter are primitive
    values.  Numbers are the integral ones (record identifiers, lengths). *)

Inductive value : Type :=
| Undefined
| Null
| Num (n : Z)
| Str (s : string).

#[global] Instance value_eq_dec : EqDecision value.
Proof. solve_decision. Defined.

(** [a === b] on primitive values. *)
Definition strict_eq (a b : value) : bool := bool_decide (a = b).

(** [!v]: the values that a condition treats as false. *)
Definition falsy (v : value) : bool :=
  match v with
  | Undefined | Null => true
  | Num n => Z.eqb n 0
  | Str s => bool_decide (s = "")
  end.

(** [`${v}`] and the conversion done when a value is assigned to a DOM
    string property.  A number is printed by its decimal digits, which is
    what JavaScript does for the safe integers; statements that depend on
    the digits of an id assume it is one (see [plain_value]). *)
Definition to_string (v : value) : string :=
  match v with
  | Undefined => "undefined"
  | Null => "null"
  | Num n => pretty n
  | Str s => s
  end.

(** ** Text: [String.prototype.trim]

    What the user types and what a todo says is a JavaScript string, kept
    as the sequence of its UTF-16 code units.  A literal stands for the
    code units of its characters. *)

Definition ustring : Type := list N.

Fixpoint units (s : string) : ustring :=
  match s with
  | EmptyString => []
  | String c s' => N_of_ascii c :: units s'
  end.

Coercion units : string >-> ustring.

(** [!text] on a string. *)
Definition is_empty (s : ustring) : bool :=
  match s with
  | [] => true
  | _ :: _ => false
  end.

(** The code units [trim] strips: WhiteSpace (TAB, VT, FF, SP, NBSP,
    U+1680, U+2000 to U+200A, U+202F, U+205F, U+3000, U+FEFF) and
    LineTerminator (LF, CR, U+2028, U+2029). *)
Definition is_whitespace (c : N) : bool :=
  match c with
  | 9%N | 10%N | 11%N | 12%N | 13%N | 32%N | 160%N => true
  | 5760%N => true
  | 8192%N | 8193%N | 8194%N | 8195%N | 8196%N | 8197%N | 8198%N | 8199%N
  | 8200%N | 8201%N | 8202%N => true
  | 8232%N | 8233%N | 8239%N | 8287%N => true
  | 12288%N | 65279%N => true
  | _ => false
  end.

Fixpoint trimStart (s : ustring) : ustring :=
  match s with
  | [] => []
  | c :: s' => if is_whitespace c then trimStart s' else s
  end.

Fixpoint trimEnd (s : ustring) : ustring :=
  match s with
  | [] => []
  | c :: s' =>
      match trimEnd s' with
      | [] => if is_whitespace c then [] else [c]
      | r => c :: r
      end
  end.

Definition trim (s : ustring) : ustring := trimEnd (trimStart s).

Fixpoint all_whitespace (s : ustring) : bool :=
  match s with
  | [] => true
  | c :: s' => is_whitespace c && all_whitespace s'
  end.

(** ** Records exchanged with the API *)

Record Project : Type := { project_id : value; project_name : string }.

Record Todo : Type := { todo_id : value; todo_text : ustring; todo_completed : bool }.

#[global] Instance Project_eq_dec : EqDecision Project.
Proof. solve_decision. Defined.

#[global] Instance Todo_eq_dec : EqDecision Todo.
Proof. solve_decision. Defined.

(** ** The controller's fields (constructor, lines 3-7) *)

Record TodoApp : Type := {
  currentProject : value;
  projects : list Project;
  todos : list Todo;
  currentFilter : value
}.

(** ** The document

    [innerHTML] of the list and of the selector is kept as the sequence of
    rendered items, each holding the values interpolated into its template. *)

Record Row : Type := {
  row_class : string;      (* todo.completed ? 'completed' : '' *)
  row_checked : string;    (* todo.completed ? 'checked' : '' *)
  row_toggle_arg : string; (* todoApp.toggleTodo(${todo.id}) *)
  row_text : ustring;      (* ${todo.text} *)
  row_delete_arg : string  (* todoApp.deleteTodo(${todo.id}) *)
}.

Record SelectOption : Type := { option_value : string; option_label : string }.

Record FilterButton : Type := { dataset_filter : value; active : bool }.

(** A [div] made by [showError]; [node] is the identity of the element. *)
Record ErrorDiv : Type := { node : nat; className : string; textContent : string }.

(** A pending [setTimeout(() => error.remove(), delay)]: the instant, in
    milliseconds, at which it fires and the element its callback removes. *)
Record Timer : Type := { due : Z; removes : nat }.

Record Dom : Type := {
  todoInput : ustring;                 (* todoInput.value *)
  todoList : list Row;                 (* todoList.innerHTML *)
  taskCount : string;                  (* taskCount.textContent *)
  filterButtons : list FilterButton;
  projectSelect : string;              (* projectSelect.value *)
  projectOptions : list SelectOption;  (* projectSelect.innerHTML *)
  todoContentHidden : bool;            (* todoContent has class 'hidden' *)
  loadingHidden : bool;                (* loadingIndicator has class 'hidden' *)
  errors : list ErrorDiv;              (* siblings inserted before todoList, document order *)
  nextNode : nat;                      (* identity of the next created element *)
  timers : list Timer;
  now : Z                              (* clock of the event loop, milliseconds *)
}.

(** ** The API client and the user

    [TodoAPI] is not part of the controller: each endpoint is an oracle that
    resolves with a record or rejects. *)

Inductive Reply (A : Type) : Type :=
| Resolved (a : A)
| Rejected.
Arguments Resolved {A} a.
Arguments Rejected {A}.

Inductive ApiCall : Type :=
| GetProjects
| CreateProject (name : value)
| DeleteProject (projectId : value)
| GetTodos (projectId : string)
| CreateTodo (projectId : value) (text : ustring) (completed : bool)
| UpdateTodo (projectId : value) (id : value) (completed : bool)
| DeleteTodo (projectId : value) (id : value).

Record TodoAPI : Type := {
  api_getProjects : Reply (list Project);
  api_createProject : value -> Reply Project;
  api_deleteProject : value -> Reply unit;
  api_getTodos : string -> Reply (list Todo);
  api_createTodo : value -> ustring -> bool -> Reply Todo;
  api_updateTodo : value -> value -> bool -> Reply Todo;
  api_deleteTodo : value -> value -> Reply unit
}.

(** What one operation sees of its surroundings: the API client and the
    user's answers to [prompt] (a string, or [null] on cancel) and
    [confirm]. *)
Record Env : Type := {
  api : TodoAPI;
  prompt : value;
  confirm : bool
}.

(** ** The world and its observable history *)

Inductive Event : Type :=
| Called (c : ApiCall)   (* a request was issued *)
| Rendered.              (* render() ran *)

Record World : Type := {
  app : TodoApp;
  dom : Dom;
  history : list Event
}.

(** ** Field assignments *)

Definition set_currentProject (v : value) (a : TodoApp) : TodoApp :=
  {| currentProject := v; projects := projects a; todos := todos a;
     currentFilter := currentFilter a |}.

Definition set_projects (ps : list Project) (a : TodoApp) : TodoApp :=
  {| currentProject := currentProject a; projects := ps; todos := todos a;
     currentFilter := currentFilter a |}.

Definition set_todos (ts : list Todo) (a : TodoApp) : TodoApp :=
  {| currentProject := currentProject a; projects := projects a; todos := ts;
     currentFilter := currentFilter a |}.

Definition set_currentFilter (f : value) (a : TodoApp) : TodoApp :=
  {| currentProject := currentProject a; projects := projects a; todos := todos a;
     currentFilter := f |}.

Definition set_todoInput (s : ustring) (d : Dom) : Dom :=
  {| todoInput := s; todoList := todoList d; taskCount := taskCount d;
     filterButtons := filterButtons d; projectSelect := projectSelect d;
     projectOptions := projectOptions d; todoContentHidden := todoContentHidden d;
     loadingHidden := loadingHidden d; errors := errors d; nextNode := nextNode d;
     timers := timers d; now := now d |}.

Definition set_todoList (rows : list Row) (d : Dom) : Dom :=
  {| todoInput := todoInput d; todoList := rows; taskCount := taskCount d;
     filterButtons := filterButtons d; projectSelect := projectSelect d;
     projectOptions := projectOptions d; todoContentHidden := todoContentHidden d;
     loadingHidden := loadingHidden d; errors := errors d; nextNode := nextNode d;
     timers := timers d; now := now d |}.

Definition set_taskCount (s : string) (d : Dom) : Dom :=
  {| todoInput := todoInput d; todoList := todoList d; taskCount := s;
     filterButtons := filterButtons d; projectSelect := projectSelect d;
     projectOptions := projectOptions d; todoContentHidden := todoContentHidden d;
     loadingHidden := loadingHidden d; errors := errors d; nextNode := nextNode d;
     timers := timers d; now := now d |}.

Definition set_filterButtons (bs : list FilterButton) (d : Dom) : Dom :=
  {| todoInput := todoInput d; todoList := todoList d; taskCount := taskCount d;
     filterButtons := bs; projectSelect := projectSelect d;
     projectOptions := projectOptions d; todoContentHidden := todoContentHidden d;
     loadingHidden := loadingHidden d; errors := errors d; nextNode := nextNode d;
     timers := timers d; now := now d |}.

Definition set_projectSelect (s : string) (d : Dom) : Dom :=
  {| todoInput := todoInput d; todoList := todoList d; taskCount := taskCount d;
     filterButtons := filterButtons d; projectSelect := s;
     projectOptions := projectOptions d; todoContentHidden := todoContentHidden d;
     loadingHidden := loadingHidden d; errors := errors d; nextNode := nextNode d;
     timers := timers d; now := now d |}.

Definition set_projectOptions (os : list SelectOption) (d : Dom) : Dom :=
  {| todoInput := todoInput d; todoList := todoList d; taskCount := taskCount d;
     filterButtons := filterButtons d; projectSelect := projectSelect d;
     projectOptions := os; todoContentHidden := todoContentHidden d;
     loadingHidden := loadingHidden d; errors := errors d; nextNode := nextNode d;
     timers := timers d; now := now d |}.

Definition set_todoContentHidden (b : bool) (d : Dom) : Dom :=
  {| todoInput := todoInput d; todoList := todoList d; taskCount := taskCount d;
     filterButtons := filterButtons d; projectSelect := projectSelect d;
     projectOptions := projectOptions d; todoContentHidden := b;
     loadingHidden := loadingHidden d; errors := errors d; nextNode := nextNode d;
     timers := timers d; now := now d |}.

Definition set_loadingHidden (b : bool) (d : Dom) : Dom :=
  {| todoInput := todoInput d; todoList := todoList d; taskCount := taskCount d;
     filterButtons := filterButtons d; projectSelect := projectSelect d;
     projectOptions := projectOptions d; todoContentHidden := todoContentHidden d;
     loadingHidden := b; errors := errors d; nextNode := nextNode d;
     timers := timers d; now := now d |}.

(** The error elements, the element counter, the timers and the clock change
    together in [showError] and in the event loop. *)
Definition set_banners (es : list ErrorDiv) (n : nat) (ts : list Timer) (t : Z)
    (d : Dom) : Dom :=
  {| todoInput := todoInput d; todoList := todoList d; taskCount := taskCount d;
     filterButtons := filterButtons d; projectSelect := projectSelect d;
     projectOptions := projectOptions d; todoContentHidden := todoContentHidden d;
     loadingHidden := loadingHidden d; errors := es; nextNode := n;
     timers := ts; now := t |}.

Definition on_app (f : TodoApp -> TodoApp) (w : World) : World :=
  {| app := f (app w); dom := dom w; history := history w |}.

Definition on_dom (f : Dom -> Dom) (w : World) : World :=
  {| app := app w; dom := f (dom w); history := history w |}.

Definition log (e : Event) (w : World) : World :=
  {| app := app w; dom := dom w; history := history w ++ [e] |}.

(** ** Asynchronous functions

    An [async] body either completes or throws, and threads the world.  An
    [await] on a promise that rejects throws at that point. *)

Inductive Completion (A : Type) : Type :=
| Normal (a : A)
| Thrown.
Arguments Normal {A} a.
Arguments Thrown {A}.

Definition Async (A : Type) : Type := World -> Completion A * World.

Definition ret {A : Type} (a : A) : Async A := fun w => (Normal a, w).

Definition bind {A B : Type} (c : Async A) (k : A -> Async B) : Async B :=
  fun w =>
    match c w with
    | (Normal a, w1) => k a w1
    | (Thrown, w1) => (Thrown, w1)
    end.

Declare Scope async_scope.
Delimit Scope async_scope with async.
Notation "x <- c ;; k" := (bind c (fun x => k))
  (at level 100, c at next level, right associativity) : async_scope.
Notation "c ;; k" := (bind c (fun _ => k))
  (at level 100, right associativity) : async_scope.
Local Open Scope async_scope.

(** [this], as the running code reads it. *)
Definition this : Async TodoApp := fun w => (Normal (app w), w).

Definition document : Async Dom := fun w => (Normal (dom w), w).

Definition assign (f : TodoApp -> TodoApp) : Async unit :=
  fun w => (Normal tt, on_app f w).

Definition mutate (f : Dom -> Dom) : Async unit :=
  fun w => (Normal tt, on_dom f w).

(** [await this.api.endpoint(args)]: the request is issued, then the
    continuation resumes with the record or the rejection is thrown. *)
Definition await {A : Type} (c : ApiCall) (r : Reply A) : Async A :=
  fun w =>
    (match r with Resolved a => Normal a | Rejected => Thrown end,
     log (Called c) w).

(** [try { body } catch (error) { handler } finally { finalizer }]. *)
Definition try_catch_finally (body handler finalizer : Async unit) : Async unit :=
  fun w =>
    match body w with
    | (Normal _, w1) => finalizer w1
    | (Thrown, w1) =>
        match handler w1 with
        | (Normal _, w2) => finalizer w2
        | (Thrown, w2) =>
            match finalizer w2 with
            | (_, w3) => (Thrown, w3)
            end
        end
    end.

(** The world an operation leaves behind. *)
Definition run (op : Async unit) (w : World) : World := snd (op w).

(** ** The operations of [TodoApp] *)

(** Lines 43-45: [classList.toggle('hidden', !show)]. *)
Definition showLoading (show : bool) : Async unit :=
  mutate (set_loadingHidden (negb show)).

(** Lines 174-180.  The new element becomes the sibling just before the
    list, after the error elements already there. *)
Definition showError (message : string) : Async unit :=
  d <- document ;;
  let error := {| node := nextNode d; className := "error"; textContent := message |} in
  mutate (set_banners (errors d ++ [error]) (S (nextNode d))
           (timers d ++ [{| due := (now d + 3000)%Z; removes := node error |}])
           (now d)).

(** Lines 59-64.  Replacing the option elements leaves the first one, whose
    value is the empty string, selected. *)
Definition renderProjects : Async unit :=
  a <- this ;;
  let options :=
    map (fun project => {| option_value := to_string (project_id project);
                          option_label := project_name project |}) (projects a) in
  mutate (set_projectOptions
           ({| option_value := ""; option_label := "Select Project" |} :: options)) ;;
  mutate (set_projectSelect "").

(** [projectSelect.value = v]: the option carrying that value is selected;
    when there is none the selector is left without a selection.  The
    values compared are those written into the option template, which are
    the values of the parsed options when the markup carries them
    unchanged (see [plain_project]). *)
Definition select_value (v : string) : Async unit :=
  d <- document ;;
  if existsb (fun o => bool_decide (option_value o = v)) (projectOptions d)
  then mutate (set_projectSelect v)
  else mutate (set_projectSelect "").

(** Lines 190-199. *)
Definition getFilteredTodos (a : TodoApp) : list Todo :=
  if strict_eq (currentFilter a) (Str "active") then
    List.filter (fun todo => negb (todo_completed todo)) (todos a)
  else if strict_eq (currentFilter a) (Str "completed") then
    List.filter (fun todo => todo_completed todo) (todos a)
  else
    todos a.

(** The row template of lines 220-228. *)
Definition row_of (todo : Todo) : Row :=
  {| row_class := if todo_completed todo then "completed" else "";
     row_checked := if todo_completed todo then "checked" else "";
     row_toggle_arg := to_string (todo_id todo);
     row_text := todo_text todo;
     row_delete_arg := to_string (todo_id todo) |}.

(** Line 232: [`${activeTodos} task${activeTodos !== 1 ? 's' : ''} left`]. *)
Definition counter_text (activeTodos : nat) : string :=
  pretty activeTodos +:+ " task" +:+ (if negb (activeTodos =? 1) then "s" else "")
    +:+ " left".

(** Lines 217-233. *)
Definition render : Async unit :=
  a <- this ;;
  let filteredTodos := getFilteredTodos a in
  mutate (set_todoList (map row_of filteredTodos)) ;;
  let activeTodos :=
    length (List.filter (fun todo => negb (todo_completed todo)) (todos a)) in
  mutate (set_taskCount (counter_text activeTodos)) ;;
  fun w => (Normal tt, log Rendered w).

(** Lines 47-57. *)
Definition loadProjects (env : Env) : Async unit :=
  try_catch_finally
    (showLoading true ;;
     ps <- await GetProjects (api_getProjects (api env)) ;;
     assign (set_projects ps) ;;
     renderProjects)
    (showError "Failed to load projects")
    (showLoading false).

(** Lines 101-119. *)
Definition changeProject (env : Env) : Async unit :=
  d <- document ;;
  let projectId := projectSelect d in
  if falsy (Str projectId) then
    mutate (set_todoContentHidden true)
  else
    try_catch_finally
      (showLoading true ;;
       assign (set_currentProject (Str projectId)) ;;
       ts <- await (GetTodos projectId) (api_getTodos (api env) projectId) ;;
       assign (set_todos ts) ;;
       mutate (set_todoContentHidden false) ;;
       render)
      (showError "Failed to load todos")
      (showLoading false).

(** Lines 66-82. *)
Definition createProject (env : Env) : Async unit :=
  let name := prompt env in
  if falsy name then ret tt
  else
    try_catch_finally
      (showLoading true ;;
       project <- await (CreateProject name) (api_createProject (api env) name) ;;
       a <- this ;;
       assign (set_projects (projects a ++ [project])) ;;
       renderProjects ;;
       select_value (to_string (project_id project)) ;;
       changeProject env)
      (showError "Failed to create project")
      (showLoading false).

(** Lines 84-99.  [confirm] is asked only when a project is current. *)
Definition deleteProject (env : Env) : Async unit :=
  a0 <- this ;;
  if falsy (currentProject a0) || negb (confirm env) then ret tt
  else
    try_catch_finally
      (showLoading true ;;
       a <- this ;;
       await (DeleteProject (currentProject a))
             (api_deleteProject (api env) (currentProject a)) ;;
       a <- this ;;
       assign (set_projects
                 (List.filter (fun p => negb (strict_eq (project_id p) (currentProject a)))
                    (projects a))) ;;
       assign (set_currentProject Null) ;;
       renderProjects ;;
       mutate (set_todoContentHidden true))
      (showError "Failed to delete project")
      (showLoading false).

(** Lines 121-139. *)
Definition addTodo (env : Env) : Async unit :=
  d <- document ;;
  let text := trim (todoInput d) in
  a0 <- this ;;
  if is_empty text || falsy (currentProject a0) then ret tt
  else
    try_catch_finally
      (showLoading true ;;
       a <- this ;;
       todo <- await (CreateTodo (currentProject a) text false)
                     (api_createTodo (api env) (currentProject a) text false) ;;
       a <- this ;;
       assign (set_todos (todos a ++ [todo])) ;;
       mutate (set_todoInput "") ;;
       render)
      (showError "Failed to add todo")
      (showLoading false).

(** Lines 141-159. *)
Definition toggleTodo (env : Env) (id : value) : Async unit :=
  a0 <- this ;;
  match List.find (fun t => strict_eq (todo_id t) id) (todos a0) with
  | None => ret tt
  | Some todo =>
      try_catch_finally
        (showLoading true ;;
         a <- this ;;
         updated <- await (UpdateTodo (currentProject a) id (negb (todo_completed todo)))
                          (api_updateTodo (api env) (currentProject a) id
                             (negb (todo_completed todo))) ;;
         a <- this ;;
         assign (set_todos (map (fun t => if strict_eq (todo_id t) id then updated else t)
                              (todos a))) ;;
         render)
        (showError "Failed to update todo")
        (showLoading false)
  end.

(** Lines 161-172. *)
Definition deleteTodo (env : Env) (id : value) : Async unit :=
  try_catch_finally
    (showLoading true ;;
     a <- this ;;
     await (DeleteTodo (currentProject a) id)
           (api_deleteTodo (api env) (currentProject a) id) ;;
     a <- this ;;
     assign (set_todos (List.filter (fun t => negb (strict_eq (todo_id t) id)) (todos a))) ;;
     render)
    (showError "Failed to delete todo")
    (showLoading false).

(** Lines 182-188. *)
Definition setFilter (filter : value) : Async unit :=
  assign (set_currentFilter filter) ;;
  d <- document ;;
  mutate (set_filterButtons
           (map (fun btn => {| dataset_filter := dataset_filter btn;
                               active := strict_eq (dataset_filter btn) filter |})
              (filterButtons d))) ;;
  render.

(** Lines 2-11: the fields of a new controller over the loaded page, then
    the first [loadProjects]. *)
Definition constructor (env : Env) (page : Dom) : World :=
  run (loadProjects env)
      {| app := {| currentProject := Null; projects := []; todos := [];
                   currentFilter := Str "all" |};
         dom := page;
         history := [] |}.

(** ** The event loop between operations

    Time passes; every timer that has come due runs its callback, which
    removes its error element from the document. *)
Definition elapse (ms : Z) (w : World) : World :=
  let d := dom w in
  let t := (now d + ms)%Z in
  let fired := List.filter (fun tm => (due tm <=? t)%Z) (timers d) in
  let pending := List.filter (fun tm => negb (due tm <=? t)%Z) (timers d) in
  let kept :=
    List.filter (fun e => negb (existsb (fun tm => removes tm =? node e) fired)) (errors d) in
  on_dom (set_banners kept (nextNode d) pending t) w.

(** ** The filter of the view *)

Inductive Filter : Type := FilterAll | FilterActive | FilterCompleted.

Definition filter_name (f : Filter) : value :=
  match f with
  | FilterAll => Str "all"
  | FilterActive => Str "active"
  | FilterCompleted => Str "completed"
  end.

(** The predicate each filter stands for. *)
Definition satisfies (f : Filter) (t : Todo) : bool :=
  match f with
  | FilterAll => true
  | FilterActive => negb (todo_completed t)
  | FilterCompleted => todo_completed t
  end.

(** The number of todos still to do, counted entry by entry. *)
Fixpoint remaining (l : list Todo) : nat :=
  match l with
  | [] => 0
  | t :: l' => if todo_completed t then remaining l' else S (remaining l')
  end.

(** ** Well-formed states *)

(** Identifiers identify: no two entries of the list carry the same one. *)
Definition unique_ids (l : list Todo) : Prop := NoDup (map todo_id l).

(** Element identities handed out so far lie below the counter, so a new
    element is distinct from every element a pending timer refers to. *)
Definition nodes_fresh (d : Dom) : Prop :=
  Forall (fun tm => removes tm < nextNode d) (timers d).

(** The element [showError message] creates in the document [d], and the
    timer it starts. *)
Definition banner_of (d : Dom) (message : string) : ErrorDiv :=
  {| node := nextNode d; className := "error"; textContent := message |}.

Definition timer_of (d : Dom) : Timer :=
  {| due := (now d + 3000)%Z; removes := nextNode d |}.

(** ** The server's side

    The todos each project has on the server, and the view being in step
    with it: whenever a project is current, the list in memory is the list
    of that project. *)
Definition Server : Type := string -> list Todo.

Definition corresponds (srv : Server) (w : World) : Prop :=
  forall p, currentProject (app w) = Str p -> todos (app w) = srv p.

(** ** Sessions

    What the page lets happen between two operations (the listeners of
    lines 29-40 that reach the operations above, and the handlers written
    into the rows), each with the answers the API and the user give
    during it. *)

Inductive Action : Type :=
| Edit (s : ustring)           (* the user edits the input box *)
| PressAdd                    (* click on addTodo, or Enter in the input *)
| Choose (v : string)         (* the user picks an option: 'change' event *)
| PressNewProject
| PressDeleteProject
| PressFilter (filter : value)
| Tick (id : value)           (* onchange of a row's checkbox *)
| PressDelete (id : value)    (* onclick of a row's delete button *)
| Wait (ms : Z).              (* nothing happens for [ms] milliseconds *)

Definition step (env : Env) (a : Action) (w : World) : World :=
  match a with
  | Edit s => on_dom (set_todoInput s) w
  | PressAdd => run (addTodo env) w
  | Choose v => run (select_value v ;; changeProject env) w
  | PressNewProject => run (createProject env) w
  | PressDeleteProject => run (deleteProject env) w
  | PressFilter filter => run (setFilter filter) w
  | Tick id => run (toggleTodo env id) w
  | PressDelete id => run (deleteTodo env id) w
  | Wait ms => elapse ms w
  end.

(** The worlds a session can be in: the constructor has run on a page with
    no timer pending, then any number of actions followed. *)
Inductive reachable : World -> Prop :=
| reachable_start (env : Env) (page : Dom) :
    timers page = [] -> reachable (constructor env page)
| reachable_step (env : Env) (a : Action) (w : World) :
    reachable w -> reachable (step env a w).

(** [currentProject] is [null] or the non-empty value of an option. *)
Definition selection_ok (v : value) : Prop :=
  v = Null \/ exists p, v = Str p /\ p <> "".

Definition well_formed (w : World) : Prop :=
  selection_ok (currentProject (app w)) /\ nodes_fresh (dom w).

(** A computation keeps a property of the world, whether it completes or
    throws. *)
Definition preserves {A : Type} (P : World -> Prop) (c : Async A) : Prop :=
  forall w, P w -> P (snd (c w)).

(** An operation that never lets an error escape. *)
Definition completes (c : Async unit) : Prop :=
  forall w, fst (c w) = Normal tt.

(** ** A sample session *)

Module Sample.

Definition work : Project := {| project_id := Num 1; project_name := "Work" |}.
Definition home : Project := {| project_id := Num 2; project_name := "Home" |}.

Definition milk : Todo :=
  {| todo_id := Num 7; todo_text := "Buy milk"; todo_completed := false |}.
Definition milk_done : Todo :=
  {| todo_id := Num 7; todo_text := "Buy milk"; todo_completed := true |}.
Definition eggs : Todo :=
  {| todo_id := Num 8; todo_text := "Buy eggs"; todo_completed := true |}.
Definition bread : Todo :=
  {| todo_id := Num 9; todo_text := "Buy bread"; todo_completed := false |}.

(** Project 1 holds one todo on the server, every other project none. *)
Definition server : Server :=
  fun p => if bool_decide (p = "1") then [milk] else [].

Definition online : TodoAPI :=
  {| api_getProjects := Resolved [work; home];
     api_createProject := fun _ => Resolved home;
     api_deleteProject := fun _ => Resolved tt;
     api_getTodos := fun p => Resolved (server p);
     api_createTodo := fun _ text completed =>
       Resolved {| todo_id := Num 7; todo_text := text; todo_completed := completed |};
     api_updateTodo := fun _ id completed =>
       Resolved {| todo_id := id; todo_text := "Buy milk"; todo_completed := completed |};
     api_deleteTodo := fun _ _ => Resolved tt |}.

Definition offline : TodoAPI :=
  {| api_getProjects := Rejected;
     api_createProject := fun _ => Rejected;
     api_deleteProject := fun _ => Rejected;
     api_getTodos := fun _ => Rejected;
     api_createTodo := fun _ _ _ => Rejected;
     api_updateTodo := fun _ _ _ => Rejected;
     api_deleteTodo := fun _ _ => Rejected |}.

Definition up : Env := {| api := online; prompt := Str "Home"; confirm := true |}.
Definition down : Env := {| api := offline; prompt := Str "Home"; confirm := true |}.

Definition page : Dom :=
  {| todoInput := ""; todoList := []; taskCount := "";
     filterButtons := [ {| dataset_filter := Str "all"; active := true |};
                        {| dataset_filter := Str "active"; active := false |};
                        {| dataset_filter := Str "completed"; active := false |} ];
     projectSelect := ""; projectOptions := [];
     todoContentHidden := true; loadingHidden := true;
     errors := []; nextNode := 0; timers := []; now := 0%Z |}.

(** The page after start-up, then with project 1 chosen and loaded, then
    with project 2 chosen while the API is out of reach. *)
Definition started : World := constructor up page.

Definition in_work : World := step up (Choose "1") started.

Definition lost : World := step down (Choose "2") in_work.

(** A controller holding three todos, two of them completed. *)
Definition shopping : TodoApp :=
  {| currentProject := Str "1"; projects := [work];
     todos := [eggs; bread; milk_done];
     currentFilter := Str "completed" |}.

Definition shopping_world : World :=
  {| app := shopping; dom := page; history := [] |}.

End Sample.

(** ** The theme (lines 201-215 and 238-240)

    The theme lives outside the controller's fields: in the [data-theme]
    attribute of the root element, in local storage, and in the icon of the
    toggle button (kept as the class of its [<i>] element). *)

Record Chrome : Type := {
  dataTheme : value;    (* getAttribute('data-theme'): a string, or null when absent *)
  storedTheme : value;  (* localStorage.getItem('theme'): a string, or null when absent *)
  themeIcon : string    (* class of the icon in themeToggle.innerHTML *)
}.

(** Lines 210-215. *)
Definition updateTheme (c : Chrome) : Chrome :=
  let theme := dataTheme c in
  {| dataTheme := dataTheme c; storedTheme := storedTheme c;
     themeIcon := if strict_eq theme (Str "light") then "fas fa-moon" else "fas fa-sun" |}.

(** Lines 201-208. *)
Definition toggleTheme (c : Chrome) : Chrome :=
  let currentTheme := dataTheme c in
  let newTheme := if strict_eq currentTheme (Str "light") then "dark" else "light" in
  updateTheme {| dataTheme := Str newTheme; storedTheme := Str newTheme;
                 themeIcon := themeIcon c |}.

(** Lines 238-240, run once when the script is loaded. *)
Definition loadTheme (c : Chrome) : Chrome :=
  let savedTheme := if falsy (storedTheme c) then Str "light" else storedTheme c in
  {| dataTheme := Str (to_string savedTheme); storedTheme := storedTheme c;
     themeIcon := themeIcon c |}.

(** ** What the page shows against what the controller holds *)

(** The rows and the counter are those of the current list and filter. *)
Definition view_synced (w : World) : Prop :=
  todoList (dom w) = map row_of (getFilteredTodos (app w)) /\
  taskCount (dom w) = counter_text (remaining (todos (app w))).

(** Every error element on the page has a timer pending that removes it,
    and no timer is due later than 3000 ms from now. *)
Definition banners_timed (w : World) : Prop :=
  (forall e, In e (errors (dom w)) ->
             exists tm, In tm (timers (dom w)) /\ removes tm = node e) /\
  Forall (fun tm => (due tm <= now (dom w) + 3000)%Z) (timers (dom w)).

(** A setter that leaves the error elements, the timers and the clock. *)
Definition plain (f : Dom -> Dom) : Prop :=
  forall d, errors (f d) = errors d /\ nextNode (f d) = nextNode d /\
            timers (f d) = timers d /\ now (f d) = now d.

(** A script is a sequence of actions, each with the environment it runs
    in; time only moves forward in it. *)
Definition forward (a : Action) : Prop :=
  match a with
  | Wait ms => (0 <= ms)%Z
  | _ => True
  end.

Fixpoint session (script : list (Env * Action)) (w : World) : World :=
  match script with
  | [] => w
  | (env, a) :: rest => session rest (step env a w)
  end.

(** An API whose update endpoint applies the patch to the entries of [l]:
    it answers with the entry, its [completed] set as asked. *)
Definition applies_patch (api : TodoAPI) (l : list Todo) : Prop :=
  forall projectId t c,
    In t l ->
    api_updateTodo api projectId (todo_id t) c
    = Resolved {| todo_id := todo_id t; todo_text := todo_text t; todo_completed := c |}.

(** The first and the last code unit of a string. *)
Definition first_unit (s : ustring) : option N :=
  match s with
  | [] => None
  | c :: _ => Some c
  end.

Fixpoint last_unit (s : ustring) : option N :=
  match s with
  | [] => None
  | [c] => Some c
  | _ :: s' => last_unit s'
  end.

(** ** The trace a rejected request leaves

    Between [w] and [w'] one request was issued and nothing was rendered;
    one error element with the given text was appended just before the
    list, with its timer; the loading indicator is hidden. *)
Definition reports (message : string) (w w' : World) : Prop :=
  errors (dom w') = errors (dom w) ++ [banner_of (dom w) message] /\
  timers (dom w') = timers (dom w) ++ [timer_of (dom w)] /\
  (exists c, history w' = history w ++ [Called c]) /\
  todoList (dom w') = todoList (dom w) /\
  taskCount (dom w') = taskCount (dom w) /\
  loadingHidden (dom w') = true.

(** ** A list with a repeated identifier

    The sample API answers every createTodo with id 7.  With project 1
    loaded (one todo, id 7) the user types a text and adds it: the list then
    holds two entries with id 7. *)
Definition bread_seven : Todo :=
  {| todo_id := Num 7; todo_text := "Buy bread"; todo_completed := false |}.

Definition two_sevens : World :=
  step Sample.up PressAdd (step Sample.up (Edit "Buy bread") Sample.in_work).

(** ** Values the markup carries unchanged

    The rows and the options are written as markup that the browser parses
    back into elements.  An interpolated value comes back as the string
    that went in, and adds no element of its own, when it holds none of the
    code units the parser treats specially: NUL, CR, the two quotes, the
    ampersand and the angle brackets.  A number is printed by its decimal
    digits when it is a safe integer (at most 2^53 - 1 in absolute value).
    The statements about the elements of the list and of the selector are
    made for such values. *)

Definition is_special (c : N) : bool :=
  match c with
  | 0%N | 13%N | 34%N | 38%N | 39%N | 60%N | 62%N => true
  | _ => false
  end.

Definition plain_text (s : ustring) : bool :=
  forallb (fun c => negb (is_special c)) s.

Definition safe_integer (n : Z) : bool := (Z.abs n <=? 9007199254740991)%Z.

Definition plain_value (v : value) : bool :=
  match v with
  | Undefined | Null => true
  | Num n => safe_integer n
  | Str s => plain_text s
  end.

Definition plain_project (p : Project) : bool :=
  plain_value (project_id p) && plain_text (project_name p).

Definition plain_todo (t : Todo) : bool :=
  plain_value (todo_id t) && plain_text (todo_text t).

(** Two projects whose ids are strings, the second one current. *)
Definition lettered : World :=
  on_app (fun a => set_currentProject (Str "b")
                     (set_projects [ {| project_id := Str "a"; project_name := "Work" |};
                                     {| project_id := Str "b"; project_name := "Home" |} ] a))
    Sample.in_work.

(** * Properties *)

(** ** Lists: what [Array.prototype.filter] keeps *)

Section Filter.
Context {A : Type} (p : A -> bool).

Lemma filter_sublist (l : list A) : List.filter p l `sublist_of` l.
Proof.
  induction l as [|x l IH]; simpl.
  - constructor.
  - destruct (p x); [apply sublist_skip | apply sublist_cons]; exact IH.
Qed.

Lemma filter_all_satisfy (l : list A) : Forall (fun x => p x = true) (List.filter p l).
Proof.
  induction l as [|x l IH]; simpl; [constructor|].
  destruct (p x) eqn:Hx; [constructor; assumption | exact IH].
Qed.

(** Nothing that satisfies the predicate is dropped: every ordered
    selection of satisfying elements is a selection of the result. *)
Lemma filter_greatest (l k : list A) :
  k `sublist_of` l -> Forall (fun x => p x = true) k -> k `sublist_of` List.filter p l.
Proof.
  intros Hsub. induction Hsub as [|x k l _ IH|x k l _ IH]; intros Hall; simpl.
  - constructor.
  - inversion Hall as [|? ? Hx Hk]; subst. rewrite Hx.
    apply sublist_skip, IH, Hk.
  - destruct (p x); [apply sublist_cons|]; apply IH, Hall.
Qed.

Lemma filter_keeps_all (l : list A) :
  (forall x, In x l -> p x = true) -> List.filter p l = l.
Proof.
  induction l as [|x l IH]; simpl; intros H; [reflexivity|].
  rewrite (H x (or_introl eq_refl)). f_equal. apply IH. intros y Hy.
  apply H. right. exact Hy.
Qed.

Lemma find_none_iff (l : list A) :
  List.find p l = None <-> forall x, In x l -> p x = false.
Proof.
  split; [apply find_none|].
  induction l as [|x l IH]; simpl; intros H; [reflexivity|].
  rewrite (H x (or_introl eq_refl)). apply IH. intros y Hy. apply H. right. exact Hy.
Qed.
End Filter.

(** ** The filter of the view *)

Lemma getFilteredTodos_filter (f : Filter) (a : TodoApp) :
  currentFilter a = filter_name f ->
  getFilteredTodos a = List.filter (satisfies f) (todos a).
Proof.
  intros Hf. unfold getFilteredTodos. rewrite Hf.
  destruct f; simpl; try reflexivity.
  symmetry. apply filter_keeps_all. reflexivity.
Qed.

(** C3: for each of the three filters, [getFilteredTodos] is an ordered
    selection of the todo list (same relative order), every todo it returns
    satisfies the filter's predicate, a todo is returned exactly when it is
    in the list and satisfies the predicate, and no satisfying todo is left
    out: any ordered selection of satisfying todos is contained in it. *)
Theorem getFilteredTodos_exact_subset (f : Filter) (a : TodoApp) :
  currentFilter a = filter_name f ->
  getFilteredTodos a `sublist_of` todos a /\
  Forall (fun t => satisfies f t = true) (getFilteredTodos a) /\
  (forall t, In t (getFilteredTodos a) <-> In t (todos a) /\ satisfies f t = true) /\
  (forall k, k `sublist_of` todos a -> Forall (fun t => satisfies f t = true) k ->
             k `sublist_of` getFilteredTodos a).
Proof.
  intros Hf. rewrite (getFilteredTodos_filter f a Hf).
  split; [apply filter_sublist|].
  split; [apply filter_all_satisfy|].
  split; [intros t; apply filter_In|].
  intros k Hk Hall. apply filter_greatest; assumption.
Qed.

Lemma getFilteredTodos_exact_subset_witness :
  getFilteredTodos Sample.shopping `sublist_of` todos Sample.shopping /\
  Forall (fun t => satisfies FilterCompleted t = true) (getFilteredTodos Sample.shopping) /\
  (forall t, In t (getFilteredTodos Sample.shopping) <->
             In t (todos Sample.shopping) /\ satisfies FilterCompleted t = true) /\
  (forall k, k `sublist_of` todos Sample.shopping ->
             Forall (fun t => satisfies FilterCompleted t = true) k ->
             k `sublist_of` getFilteredTodos Sample.shopping).
Proof.
  apply (getFilteredTodos_exact_subset FilterCompleted Sample.shopping). reflexivity.
Defined.

(** C9: whatever the current filter holds, as long as it is neither the
    string 'active' nor the string 'completed', the [switch] reaches its
    default case and the whole todo list is returned. *)
Theorem getFilteredTodos_default (a : TodoApp) :
  currentFilter a <> Str "active" ->
  currentFilter a <> Str "completed" ->
  getFilteredTodos a = todos a.
Proof.
  intros Ha Hc. unfold getFilteredTodos, strict_eq.
  rewrite !bool_decide_eq_false_2 by assumption. reflexivity.
Qed.

Lemma getFilteredTodos_default_witness :
  getFilteredTodos (set_currentFilter (Str "archived") Sample.shopping)
  = todos (set_currentFilter (Str "archived") Sample.shopping).
Proof.
  apply (getFilteredTodos_default (set_currentFilter (Str "archived") Sample.shopping));
    discriminate.
Defined.

(** ** The counter *)

Lemma active_count_remaining (l : list Todo) :
  length (List.filter (fun todo => negb (todo_completed todo)) l) = remaining l.
Proof.
  induction l as [|t l IH]; simpl; [reflexivity|].
  destruct (todo_completed t); simpl; congruence.
Qed.

Lemma remaining_counts_false (l : list Todo) :
  remaining l = count_occ bool_dec (map todo_completed l) false.
Proof.
  induction l as [|t l IH]; simpl; [reflexivity|].
  destruct (todo_completed t); simpl; congruence.
Qed.

Lemma render_completes (w : World) : fst (render w) = Normal tt.
Proof. reflexivity. Qed.

Lemma render_taskCount (w : World) :
  taskCount (dom (run render w)) = counter_text (remaining (todos (app w))).
Proof.
  unfold run, render, bind, this, mutate. simpl.
  rewrite active_count_remaining. reflexivity.
Qed.

Example counter_text_0 : counter_text 0 = "0 tasks left".
Proof. reflexivity. Qed.

Example counter_text_1 : counter_text 1 = "1 task left".
Proof. reflexivity. Qed.

Example counter_text_12 : counter_text 12 = "12 tasks left".
Proof. reflexivity. Qed.

(** C5: after [render], the counter shows the number of todos whose
    [completed] is false, in decimal, followed by " task left" when that
    number is exactly 1 and by " tasks left" for every other number, 0
    included. *)
Theorem render_counter_text (w : World) :
  taskCount (dom (run render w)) =
    pretty (remaining (todos (app w))) +:+
    (if decide (remaining (todos (app w)) = 1) then " task left" else " tasks left").
Proof.
  rewrite render_taskCount. unfold counter_text.
  destruct (decide (remaining (todos (app w)) = 1)) as [->|Hne].
  - reflexivity.
  - apply Nat.eqb_neq in Hne. rewrite Hne. reflexivity.
Qed.

(** ** Trimming *)

Lemma trimStart_all_whitespace (s : ustring) :
  all_whitespace s = true -> trimStart s = [].
Proof.
  induction s as [|c s IH]; simpl; [reflexivity|].
  destruct (is_whitespace c); simpl; [exact IH | discriminate].
Qed.

Lemma trimStart_some_ink (s : ustring) :
  all_whitespace s = false ->
  exists c r, trimStart s = c :: r /\ is_whitespace c = false.
Proof.
  induction s as [|c s IH]; simpl; [discriminate|].
  destruct (is_whitespace c) eqn:Hc; simpl; [exact IH|].
  intros _. exists c, s. split; [reflexivity | exact Hc].
Qed.

Lemma trimEnd_keeps_ink (c : N) (r : ustring) :
  is_whitespace c = false -> trimEnd (c :: r) <> [].
Proof.
  intros Hc. simpl. destruct (trimEnd r); [rewrite Hc|]; discriminate.
Qed.

Lemma trim_empty_iff (s : ustring) : trim s = [] <-> all_whitespace s = true.
Proof.
  unfold trim. split.
  - intros H. destruct (all_whitespace s) eqn:Hs; [reflexivity|].
    destruct (trimStart_some_ink s Hs) as (c & r & Heq & Hc).
    rewrite Heq in H. exfalso. exact (trimEnd_keeps_ink c r Hc H).
  - intros H. rewrite (trimStart_all_whitespace s H). reflexivity.
Qed.

Lemma is_empty_trim (s : ustring) : is_empty (trim s) = all_whitespace s.
Proof.
  destruct (all_whitespace s) eqn:Hs.
  - apply trim_empty_iff in Hs. rewrite Hs. reflexivity.
  - destruct (trim s) eqn:Ht; [|reflexivity].
    apply trim_empty_iff in Ht. congruence.
Qed.

Example trim_buy_milk : trim "  Buy milk " = "Buy milk".
Proof. reflexivity. Qed.

(** An ideographic space, a byte-order mark and an en quad around a word:
    all three are stripped. *)
Example trim_wide_spaces :
  trim ([12288; 65279] ++ units "ok" ++ [8192])%N = "ok".
Proof. reflexivity. Qed.

(** ** [changeProject] on an empty selection *)

(** C7: with the selector on the empty value, [changeProject] adds the
    class 'hidden' to the todo view and does nothing else: no request is
    issued (the history, hence any call to getTodos, is as before), and
    [currentProject], [projects], [todos] and [currentFilter] keep their
    values. *)
Theorem changeProject_empty_selection (env : Env) (w : World) :
  projectSelect (dom w) = "" ->
  changeProject env w = (Normal tt, on_dom (set_todoContentHidden true) w) /\
  todoContentHidden (dom (run (changeProject env) w)) = true /\
  history (run (changeProject env) w) = history w /\
  (forall p, ~ In (Called (GetTodos p)) (history w) ->
             ~ In (Called (GetTodos p)) (history (run (changeProject env) w))) /\
  currentProject (app (run (changeProject env) w)) = currentProject (app w) /\
  projects (app (run (changeProject env) w)) = projects (app w) /\
  todos (app (run (changeProject env) w)) = todos (app w) /\
  currentFilter (app (run (changeProject env) w)) = currentFilter (app w).
Proof.
  intros Hsel.
  assert (Heq : changeProject env w = (Normal tt, on_dom (set_todoContentHidden true) w)).
  { unfold changeProject, bind, document. rewrite Hsel. reflexivity. }
  unfold run. rewrite Heq. simpl. repeat split; auto.
Qed.

Lemma changeProject_empty_selection_witness :
  todoContentHidden (dom (run (changeProject Sample.up)
                            (on_dom (set_projectSelect "") Sample.in_work))) = true /\
  history (run (changeProject Sample.up) (on_dom (set_projectSelect "") Sample.in_work))
  = history Sample.in_work /\
  app (run (changeProject Sample.up) (on_dom (set_projectSelect "") Sample.in_work))
  = app Sample.in_work.
Proof.
  pose proof (changeProject_empty_selection Sample.up
                (on_dom (set_projectSelect "") Sample.in_work) eq_refl)
    as (Heq & Hhid & Hhist & _).
  split; [exact Hhid|]. split; [exact Hhist|].
  unfold run. rewrite Heq. reflexivity.
Defined.

(** ** [addTodo] *)

Lemma addTodo_noop (env : Env) (w : World) :
  all_whitespace (todoInput (dom w)) = true \/ currentProject (app w) = Null ->
  addTodo env w = (Normal tt, w).
Proof.
  intros H. unfold addTodo, bind, document, this.
  destruct H as [H|H].
  - rewrite is_empty_trim, H. reflexivity.
  - rewrite H. simpl. rewrite orb_true_r. reflexivity.
Qed.

Lemma addTodo_proceeds (env : Env) (w : World) (p : string) :
  all_whitespace (todoInput (dom w)) = false ->
  currentProject (app w) = Str p -> p <> "" ->
  run (addTodo env) w =
    match api_createTodo (api env) (Str p) (trim (todoInput (dom w))) false with
    | Resolved todo =>
        on_dom (set_loadingHidden true)
          (run render
             (on_dom (set_todoInput "")
                (on_app (set_todos (todos (app w) ++ [todo]))
                   (log (Called (CreateTodo (Str p) (trim (todoInput (dom w))) false))
                      (on_dom (set_loadingHidden false) w)))))
    | Rejected =>
        on_dom (set_loadingHidden true)
          (run (showError "Failed to add todo")
             (log (Called (CreateTodo (Str p) (trim (todoInput (dom w))) false))
                (on_dom (set_loadingHidden false) w)))
    end.
Proof.
  intros Hink Hcur Hp.
  assert (Htext : is_empty (trim (todoInput (dom w))) = false).
  { rewrite is_empty_trim. exact Hink. }
  assert (Hproj : falsy (currentProject (app w)) = false).
  { rewrite Hcur. simpl. apply bool_decide_eq_false_2. exact Hp. }
  unfold run, addTodo, bind, document, this. rewrite Htext, Hproj. simpl.
  unfold try_catch_finally, bind, showLoading, mutate, this, await, assign. simpl.
  rewrite Hcur.
  destruct (api_createTodo (api env) (Str p) (trim (todoInput (dom w))) false);
    reflexivity.
Qed.

(** C6: when the input is empty or all white space (every code unit is one
    that [trim] strips, the wide and Unicode spaces included), or no project
    is current, [addTodo] returns at once: no request, the world as it was.
    Otherwise it asks the API to create a todo with the trimmed text and
    [completed] false; when the API answers with a record, that record is
    appended at the end of the todo list, the input is cleared and the list
    is rendered again; the other fields of the controller are untouched. *)
Theorem addTodo_guard_and_append (env : Env) (w : World) :
  (all_whitespace (todoInput (dom w)) = true \/ currentProject (app w) = Null ->
   addTodo env w = (Normal tt, w)) /\
  (forall p text,
     all_whitespace (todoInput (dom w)) = false ->
     trim (todoInput (dom w)) = text ->
     currentProject (app w) = Str p -> p <> "" ->
     (exists rest, history (run (addTodo env) w)
                   = history w ++ Called (CreateTodo (Str p) text false) :: rest) /\
     forall todo,
       api_createTodo (api env) (Str p) text false = Resolved todo ->
       todos (app (run (addTodo env) w)) = todos (app w) ++ [todo] /\
       todoInput (dom (run (addTodo env) w)) = "" /\
       history (run (addTodo env) w)
       = history w ++ [Called (CreateTodo (Str p) text false); Rendered] /\
       currentProject (app (run (addTodo env) w)) = Str p /\
       projects (app (run (addTodo env) w)) = projects (app w) /\
       currentFilter (app (run (addTodo env) w)) = currentFilter (app w)).
Proof.
  split; [apply addTodo_noop|].
  intros p text Hink Htext Hcur Hp.
  rewrite (addTodo_proceeds env w p Hink Hcur Hp). rewrite Htext.
  split.
  - destruct (api_createTodo (api env) (Str p) text false); simpl.
    + exists [Rendered]. rewrite <- app_assoc. reflexivity.
    + exists []. reflexivity.
  - intros todo Hreply. rewrite Hreply. simpl.
    rewrite <- app_assoc. simpl. repeat split; auto.
Qed.

Lemma addTodo_guard_and_append_witness :
  addTodo Sample.up (on_dom (set_todoInput "   ") Sample.in_work)
  = (Normal tt, on_dom (set_todoInput "   ") Sample.in_work) /\
  addTodo Sample.up (on_dom (set_todoInput [12288; 65279; 8195]%N) Sample.in_work)
  = (Normal tt, on_dom (set_todoInput [12288; 65279; 8195]%N) Sample.in_work) /\
  todos (app (run (addTodo Sample.up) (on_dom (set_todoInput " Buy bread ") Sample.in_work)))
  = [Sample.milk; {| todo_id := Num 7; todo_text := "Buy bread"; todo_completed := false |}] /\
  todoInput (dom (run (addTodo Sample.up)
                    (on_dom (set_todoInput " Buy bread ") Sample.in_work))) = "".
Proof.
  split; [|split].
  - apply (proj1 (addTodo_guard_and_append Sample.up
                    (on_dom (set_todoInput "   ") Sample.in_work))).
    left. reflexivity.
  - apply (proj1 (addTodo_guard_and_append Sample.up
                    (on_dom (set_todoInput [12288; 65279; 8195]%N) Sample.in_work))).
    left. reflexivity.
  - pose proof (proj2 (addTodo_guard_and_append Sample.up
                         (on_dom (set_todoInput " Buy bread ") Sample.in_work))
                  "1" "Buy bread" eq_refl eq_refl eq_refl ltac:(discriminate)) as [_ H].
    specialize (H _ eq_refl) as (Htodos & Hinput & _).
    split; [exact Htodos | exact Hinput].
Defined.

(** ** [toggleTodo] *)

Section Replace.
Variables (id : value) (updated : Todo).

(** The callback of line 152. *)
Let swap (t : Todo) : Todo := if strict_eq (todo_id t) id then updated else t.

Lemma swap_absent (l : list Todo) :
  (forall t, In t l -> todo_id t <> id) -> map swap l = l.
Proof.
  induction l as [|x l IH]; simpl; intros H; [reflexivity|].
  unfold swap at 1, strict_eq.
  rewrite bool_decide_eq_false_2 by (apply H; left; reflexivity).
  f_equal. apply IH. intros t Ht. apply H. right. exact Ht.
Qed.

Lemma unique_ids_tail (x : Todo) (l : list Todo) :
  unique_ids (x :: l) -> unique_ids l /\ forall t, In t l -> todo_id t <> todo_id x.
Proof.
  unfold unique_ids. simpl. intros H. inversion H as [|? ? Hnotin Hnodup]; subst.
  split; [exact Hnodup|].
  intros t Ht Heq. apply Hnotin. rewrite <- Heq.
  apply list_elem_of_In, in_map. exact Ht.
Qed.

Lemma swap_unique (l : list Todo) (i : nat) (t : Todo) :
  unique_ids l -> l !! i = Some t -> todo_id t = id ->
  map swap l = <[i:=updated]> l.
Proof.
  revert i. induction l as [|x l IH]; intros i Huniq Hi Hid; [discriminate|].
  destruct (unique_ids_tail x l Huniq) as [Htail Hfresh].
  destruct i as [|i]; simpl in *.
  - injection Hi as ->. unfold swap at 1, strict_eq.
    rewrite bool_decide_eq_true_2 by exact Hid. f_equal.
    apply swap_absent. intros y Hy. rewrite <- Hid. apply Hfresh. exact Hy.
  - assert (Hin : In t l) by (apply list_elem_of_In, list_elem_of_lookup; eauto).
    unfold swap at 1, strict_eq.
    rewrite bool_decide_eq_false_2
      by (intros Hx; apply (Hfresh t Hin); congruence).
    f_equal. apply (IH i Htail Hi Hid).
Qed.

Lemma find_unique (l : list Todo) (i : nat) (t : Todo) :
  unique_ids l -> l !! i = Some t -> todo_id t = id ->
  List.find (fun x => strict_eq (todo_id x) id) l = Some t.
Proof.
  revert i. induction l as [|x l IH]; intros i Huniq Hi Hid; [discriminate|].
  destruct (unique_ids_tail x l Huniq) as [Htail Hfresh].
  destruct i as [|i]; simpl in *.
  - injection Hi as ->. unfold strict_eq.
    rewrite bool_decide_eq_true_2 by exact Hid. reflexivity.
  - assert (Hin : In t l) by (apply list_elem_of_In, list_elem_of_lookup; eauto).
    unfold strict_eq at 1.
    rewrite bool_decide_eq_false_2
      by (intros Hx; apply (Hfresh t Hin); congruence).
    apply (IH i Htail Hi Hid).
Qed.

Lemma swap_lookup (l : list Todo) (j : nat) :
  map swap l !! j = swap <$> l !! j.
Proof. apply (list_lookup_fmap swap l j). Qed.

End Replace.

Lemma toggleTodo_unknown (env : Env) (id : value) (w : World) :
  (forall t, In t (todos (app w)) -> todo_id t <> id) ->
  toggleTodo env id w = (Normal tt, w).
Proof.
  intros H. unfold toggleTodo, bind, this.
  assert (Hfind : List.find (fun t => strict_eq (todo_id t) id) (todos (app w)) = None).
  { apply find_none_iff. intros t Ht. unfold strict_eq.
    apply bool_decide_eq_false_2. apply H. exact Ht. }
  rewrite Hfind. reflexivity.
Qed.

Lemma toggleTodo_known (env : Env) (id : value) (w : World) (todo : Todo) :
  List.find (fun t => strict_eq (todo_id t) id) (todos (app w)) = Some todo ->
  run (toggleTodo env id) w =
    let call := UpdateTodo (currentProject (app w)) id (negb (todo_completed todo)) in
    match api_updateTodo (api env) (currentProject (app w)) id
            (negb (todo_completed todo)) with
    | Resolved updated =>
        on_dom (set_loadingHidden true)
          (run render
             (on_app (set_todos
                        (map (fun t => if strict_eq (todo_id t) id then updated else t)
                           (todos (app w))))
                (log (Called call) (on_dom (set_loadingHidden false) w))))
    | Rejected =>
        on_dom (set_loadingHidden true)
          (run (showError "Failed to update todo")
             (log (Called call) (on_dom (set_loadingHidden false) w)))
    end.
Proof.
  intros Hfind. unfold run, toggleTodo, bind, this. rewrite Hfind. simpl.
  unfold try_catch_finally, bind, showLoading, mutate, this, await, assign. simpl.
  destruct (api_updateTodo (api env) (currentProject (app w)) id
              (negb (todo_completed todo))); reflexivity.
Qed.

(** Without any assumption on the identifiers: on success every position
    holding a todo with the given id holds the server's record afterwards,
    every other position holds what it held. *)
Lemma toggleTodo_positions (env : Env) (id : value) (w : World) (todo updated : Todo) :
  List.find (fun t => strict_eq (todo_id t) id) (todos (app w)) = Some todo ->
  api_updateTodo (api env) (currentProject (app w)) id (negb (todo_completed todo))
  = Resolved updated ->
  forall j, todos (app (run (toggleTodo env id) w)) !! j
            = (fun t => if strict_eq (todo_id t) id then updated else t)
                <$> todos (app w) !! j.
Proof.
  intros Hfind Hreply j. rewrite (toggleTodo_known env id w todo Hfind). simpl.
  rewrite Hreply. simpl. apply swap_lookup.
Qed.

(** C4: [toggleTodo(id)] returns at once, leaving the world as it was and
    issuing no request, when no todo of the list has that id.  Otherwise
    the request carries the negation of [completed] of the first entry with
    the id; if it resolves with [updated], every position that held an
    entry with the id holds [updated] afterwards and every other position
    holds the same value as before; the length is unchanged, and so are
    the other fields of the controller.  When the identifiers of the list
    are pairwise distinct this is one position: the new list is the old one
    with that position set to [updated]. *)
Theorem toggleTodo_replaces_matching (env : Env) (id : value) (w : World) :
  ((forall t, In t (todos (app w)) -> todo_id t <> id) ->
   toggleTodo env id w = (Normal tt, w)) /\
  (forall todo updated,
     List.find (fun t => strict_eq (todo_id t) id) (todos (app w)) = Some todo ->
     api_updateTodo (api env) (currentProject (app w)) id (negb (todo_completed todo))
     = Resolved updated ->
     (forall j t, todos (app w) !! j = Some t -> todo_id t = id ->
                  todos (app (run (toggleTodo env id) w)) !! j = Some updated) /\
     (forall j t, todos (app w) !! j = Some t -> todo_id t <> id ->
                  todos (app (run (toggleTodo env id) w)) !! j = Some t) /\
     length (todos (app (run (toggleTodo env id) w))) = length (todos (app w)) /\
     (forall i t, unique_ids (todos (app w)) ->
                  todos (app w) !! i = Some t -> todo_id t = id ->
                  todos (app (run (toggleTodo env id) w))
                  = <[i:=updated]> (todos (app w))) /\
     history (run (toggleTodo env id) w)
     = history w ++ [Called (UpdateTodo (currentProject (app w)) id
                               (negb (todo_completed todo))); Rendered] /\
     currentProject (app (run (toggleTodo env id) w)) = currentProject (app w) /\
     projects (app (run (toggleTodo env id) w)) = projects (app w) /\
     currentFilter (app (run (toggleTodo env id) w)) = currentFilter (app w)).
Proof.
  split; [apply toggleTodo_unknown|].
  intros todo updated Hfind Hreply.
  pose proof (toggleTodo_positions env id w todo updated Hfind Hreply) as Hpos.
  repeat apply conj.
  - intros j t Hj Hid. rewrite Hpos, Hj. simpl. unfold strict_eq.
    rewrite (bool_decide_eq_true_2 _ Hid). reflexivity.
  - intros j t Hj Hid. rewrite Hpos, Hj. simpl. unfold strict_eq.
    rewrite (bool_decide_eq_false_2 _ Hid). reflexivity.
  - rewrite (toggleTodo_known env id w todo Hfind). simpl. rewrite Hreply. simpl.
    apply length_map.
  - intros i t Huniq Hi Hid.
    rewrite (toggleTodo_known env id w todo Hfind). simpl. rewrite Hreply. simpl.
    apply (swap_unique id updated (todos (app w)) i t Huniq Hi Hid).
  - rewrite (toggleTodo_known env id w todo Hfind). simpl. rewrite Hreply. simpl.
    rewrite <- app_assoc. reflexivity.
  - rewrite (toggleTodo_known env id w todo Hfind). simpl. rewrite Hreply. reflexivity.
  - rewrite (toggleTodo_known env id w todo Hfind). simpl. rewrite Hreply. reflexivity.
  - rewrite (toggleTodo_known env id w todo Hfind). simpl. rewrite Hreply. reflexivity.
Qed.

Lemma toggleTodo_replaces_matching_witness :
  toggleTodo Sample.up (Num 5) Sample.shopping_world = (Normal tt, Sample.shopping_world) /\
  todos (app (run (toggleTodo Sample.up (Num 9)) Sample.shopping_world))
  = [Sample.eggs;
     {| todo_id := Num 9; todo_text := "Buy milk"; todo_completed := true |};
     Sample.milk_done] /\
  todos (app (run (toggleTodo Sample.up (Num 7)) two_sevens)) !! 1 = Some Sample.milk_done.
Proof.
  split; [|split].
  - apply (proj1 (toggleTodo_replaces_matching Sample.up (Num 5) Sample.shopping_world)).
    intros t [<-|[<-|[<-|[]]]]; discriminate.
  - refine (proj1 (proj2 (proj2 (proj2
             (proj2 (toggleTodo_replaces_matching Sample.up (Num 9) Sample.shopping_world)
                Sample.bread
                {| todo_id := Num 9; todo_text := "Buy milk"; todo_completed := true |}
                eq_refl eq_refl)))) 1 Sample.bread _ eq_refl eq_refl).
    unfold unique_ids. apply (bool_decide_unpack _). vm_compute. exact I.
  - refine (proj1 (proj2 (toggleTodo_replaces_matching Sample.up (Num 7) two_sevens)
                     Sample.milk Sample.milk_done eq_refl eq_refl) 1 bread_seven
              eq_refl eq_refl).
Defined.

(** The list with two entries of id 7 is one a session reaches, and a
    resolved [toggleTodo(7)] replaces both of them: no single position
    accounts for the change. *)
Lemma toggleTodo_two_sevens :
  reachable two_sevens /\
  todos (app two_sevens) = [Sample.milk; bread_seven] /\
  api_updateTodo (api Sample.up) (currentProject (app two_sevens)) (Num 7) true
  = Resolved Sample.milk_done /\
  todos (app (run (toggleTodo Sample.up (Num 7)) two_sevens))
  = [Sample.milk_done; Sample.milk_done] /\
  ~ (exists i, todos (app (run (toggleTodo Sample.up (Num 7)) two_sevens))
               = <[i:=Sample.milk_done]> (todos (app two_sevens))).
Proof.
  repeat apply conj; try reflexivity.
  - unfold two_sevens. do 2 apply reachable_step.
    apply (reachable_step Sample.up (Choose "1") Sample.started).
    apply (reachable_start Sample.up Sample.page). reflexivity.
  - intros [i H]. destruct i as [|[|i]]; discriminate H.
Qed.

(** ** [showError] and the timers *)

Lemma showError_run (message : string) (w : World) :
  showError message w =
    (Normal tt,
     on_dom (set_banners (errors (dom w) ++ [banner_of (dom w) message])
               (S (nextNode (dom w)))
               (timers (dom w) ++ [timer_of (dom w)])
               (now (dom w))) w).
Proof. reflexivity. Qed.

(** Once the delay has passed the element is gone. *)
Lemma elapse_removes (w : World) (es : list ErrorDiv) (ts : list Timer) (tm : Timer) (n : nat)
    (ms : Z) :
  (due tm <= now (dom w) + ms)%Z ->
  forall e,
    In e (errors (dom (elapse ms (on_dom (set_banners es n (ts ++ [tm]) (now (dom w))) w)))) ->
    node e <> removes tm.
Proof.
  intros Hdue e. unfold elapse. simpl. rewrite filter_In. intros [_ Hkeep] Heq.
  apply negb_true_iff in Hkeep.
  assert (Hfired : existsb (fun t => removes t =? node e)
                     (List.filter (fun t => (due t <=? now (dom w) + ms)%Z) (ts ++ [tm]))
                   = true).
  { apply existsb_exists. exists tm. split.
    - apply filter_In. split; [apply in_or_app; right; left; reflexivity|].
      apply Z.leb_le. exact Hdue.
    - apply Nat.eqb_eq. symmetry. exact Heq. }
  congruence.
Qed.

(** Until then it stays, provided its identity is new. *)
Lemma elapse_keeps (w : World) (es : list ErrorDiv) (ts : list Timer) (tm : Timer) (n : nat)
    (ms : Z) (e : ErrorDiv) :
  (now (dom w) + ms < due tm)%Z ->
  Forall (fun t => removes t < node e) ts ->
  In e (errors (dom (elapse ms (on_dom (set_banners (es ++ [e]) n (ts ++ [tm])
                                          (now (dom w))) w)))).
Proof.
  intros Hdue Hfresh. unfold elapse. simpl. apply filter_In.
  split; [apply in_or_app; right; left; reflexivity|].
  apply negb_true_iff. apply not_true_is_false. intros Hex.
  apply existsb_exists in Hex as (t & Hin & Heq).
  apply filter_In in Hin as [Hin Hle]. apply Z.leb_le in Hle.
  apply Nat.eqb_eq in Heq.
  apply in_app_or in Hin as [Hin|[<-|[]]].
  - rewrite Forall_forall in Hfresh.
    specialize (Hfresh t (proj2 (list_elem_of_In _ _) Hin)). lia.
  - lia.
Qed.

Lemma error_messages_distinct :
  NoDup ["Failed to load projects"; "Failed to create project"; "Failed to delete project";
         "Failed to load todos"; "Failed to add todo"; "Failed to update todo";
         "Failed to delete todo"].
Proof. apply (bool_decide_unpack _). vm_compute. exact I. Qed.

(** ** [deleteTodo] *)

Lemma deleteTodo_run (env : Env) (id : value) (w : World) :
  run (deleteTodo env id) w =
    match api_deleteTodo (api env) (currentProject (app w)) id with
    | Resolved _ =>
        on_dom (set_loadingHidden true)
          (run render
             (on_app (set_todos
                        (List.filter (fun t => negb (strict_eq (todo_id t) id))
                           (todos (app w))))
                (log (Called (DeleteTodo (currentProject (app w)) id))
                   (on_dom (set_loadingHidden false) w))))
    | Rejected =>
        on_dom (set_loadingHidden true)
          (run (showError "Failed to delete todo")
             (log (Called (DeleteTodo (currentProject (app w)) id))
                (on_dom (set_loadingHidden false) w)))
    end.
Proof.
  unfold run, deleteTodo, try_catch_finally, bind, showLoading, mutate, this, await, assign.
  simpl.
  destruct (api_deleteTodo (api env) (currentProject (app w)) id); reflexivity.
Qed.

(** C8: when the delete request is rejected, the controller's fields, the
    todo list among them, are as before; one error element with the fixed
    text 'Failed to delete todo' is inserted as the sibling just before the
    list; a timer is started that is due 3000 ms later and removes that
    element.  The element is gone at every instant from 3000 ms on, and,
    when element identities are fresh, it is still there at every earlier
    instant. *)
Theorem deleteTodo_failure_banner (env : Env) (id : value) (w : World) :
  api_deleteTodo (api env) (currentProject (app w)) id = Rejected ->
  todos (app (run (deleteTodo env id) w)) = todos (app w) /\
  app (run (deleteTodo env id) w) = app w /\
  errors (dom (run (deleteTodo env id) w))
  = errors (dom w) ++ [banner_of (dom w) "Failed to delete todo"] /\
  timers (dom (run (deleteTodo env id) w)) = timers (dom w) ++ [timer_of (dom w)] /\
  (forall ms e, (3000 <= ms)%Z ->
     In e (errors (dom (elapse ms (run (deleteTodo env id) w)))) ->
     node e <> node (banner_of (dom w) "Failed to delete todo")) /\
  (nodes_fresh (dom w) ->
   forall ms, (0 <= ms < 3000)%Z ->
     In (banner_of (dom w) "Failed to delete todo")
        (errors (dom (elapse ms (run (deleteTodo env id) w))))).
Proof.
  intros Hreply. rewrite deleteTodo_run, Hreply. unfold run. rewrite showError_run.
  simpl. repeat split.
  - intros ms e Hms.
    apply (elapse_removes
             (on_dom (set_loadingHidden true)
                (log (Called (DeleteTodo (currentProject (app w)) id)) w))
             _ (timers (dom w)) (timer_of (dom w)) (S (nextNode (dom w))) ms).
    simpl. lia.
  - intros Hfresh ms Hms.
    apply (elapse_keeps
             (on_dom (set_loadingHidden true)
                (log (Called (DeleteTodo (currentProject (app w)) id)) w))
             (errors (dom w)) (timers (dom w)) (timer_of (dom w)) (S (nextNode (dom w)))
             ms (banner_of (dom w) "Failed to delete todo")).
    + simpl. lia.
    + exact Hfresh.
Qed.

Lemma deleteTodo_failure_banner_witness :
  todos (app (run (deleteTodo Sample.down (Num 7)) Sample.in_work)) = [Sample.milk] /\
  errors (dom (run (deleteTodo Sample.down (Num 7)) Sample.in_work))
  = [ {| node := 0; className := "error"; textContent := "Failed to delete todo" |} ] /\
  errors (dom (elapse 3000 (run (deleteTodo Sample.down (Num 7)) Sample.in_work))) = [].
Proof.
  pose proof (deleteTodo_failure_banner Sample.down (Num 7) Sample.in_work eq_refl)
    as (Htodos & _ & Herrors & _).
  split; [exact Htodos|]. split; [exact Herrors|]. reflexivity.
Defined.

(** C10: [deleteTodo(id)] never looks the id up.  For an id that no todo of
    the list carries it still issues the delete request; when that request
    resolves, the filter drops nothing, so the controller's fields are as
    before, and [render] still runs, writing the rows and the counter of the
    unchanged list.  [toggleTodo] with the same id returns at once. *)
Theorem deleteTodo_absent_id (env : Env) (id : value) (w : World) :
  (forall t, In t (todos (app w)) -> todo_id t <> id) ->
  (exists rest, history (run (deleteTodo env id) w)
                = history w ++ Called (DeleteTodo (currentProject (app w)) id) :: rest) /\
  (forall u, api_deleteTodo (api env) (currentProject (app w)) id = Resolved u ->
     todos (app (run (deleteTodo env id) w)) = todos (app w) /\
     app (run (deleteTodo env id) w) = app w /\
     history (run (deleteTodo env id) w)
     = history w ++ [Called (DeleteTodo (currentProject (app w)) id); Rendered] /\
     todoList (dom (run (deleteTodo env id) w)) = map row_of (getFilteredTodos (app w)) /\
     taskCount (dom (run (deleteTodo env id) w))
     = counter_text (remaining (todos (app w)))) /\
  toggleTodo env id w = (Normal tt, w).
Proof.
  intros Habsent.
  assert (Hkeep : List.filter (fun t => negb (strict_eq (todo_id t) id)) (todos (app w))
                  = todos (app w)).
  { apply filter_keeps_all. intros t Ht. unfold strict_eq.
    rewrite bool_decide_eq_false_2 by (apply Habsent; exact Ht). reflexivity. }
  split; [|split].
  - rewrite deleteTodo_run.
    destruct (api_deleteTodo (api env) (currentProject (app w)) id); simpl.
    + exists [Rendered]. rewrite <- app_assoc. reflexivity.
    + exists []. reflexivity.
  - intros u Hreply. rewrite deleteTodo_run, Hreply, Hkeep.
    assert (Hsame : on_app (set_todos (todos (app w)))
                      (log (Called (DeleteTodo (currentProject (app w)) id))
                         (on_dom (set_loadingHidden false) w))
                    = log (Called (DeleteTodo (currentProject (app w)) id))
                        (on_dom (set_loadingHidden false) w)).
    { destruct w as [[cp ps ts cf] d h]. reflexivity. }
    rewrite Hsame. simpl. rewrite active_count_remaining, <- app_assoc. simpl.
    destruct w as [[cp ps ts cf] d h]. repeat split; reflexivity.
  - apply toggleTodo_unknown. exact Habsent.
Qed.

Lemma deleteTodo_absent_id_witness :
  history (run (deleteTodo Sample.up (Num 5)) Sample.shopping_world)
  = [Called (DeleteTodo (Str "1") (Num 5)); Rendered] /\
  todos (app (run (deleteTodo Sample.up (Num 5)) Sample.shopping_world))
  = [Sample.eggs; Sample.bread; Sample.milk_done] /\
  toggleTodo Sample.up (Num 5) Sample.shopping_world = (Normal tt, Sample.shopping_world).
Proof.
  assert (Habsent : forall t, In t (todos (app Sample.shopping_world)) -> todo_id t <> Num 5).
  { intros t [<-|[<-|[<-|[]]]]; discriminate. }
  pose proof (deleteTodo_absent_id Sample.up (Num 5) Sample.shopping_world Habsent)
    as (_ & Hok & Htoggle).
  specialize (Hok tt eq_refl) as (Htodos & _ & Hhist & _).
  split; [exact Hhist|]. split; [exact Htodos | exact Htoggle].
Defined.

(** ** Rejected requests and the controller's fields *)

Lemma loadProjects_run (env : Env) (w : World) :
  run (loadProjects env) w =
    match api_getProjects (api env) with
    | Resolved ps =>
        on_dom (set_loadingHidden true)
          (run renderProjects
             (on_app (set_projects ps)
                (log (Called GetProjects) (on_dom (set_loadingHidden false) w))))
    | Rejected =>
        on_dom (set_loadingHidden true)
          (run (showError "Failed to load projects")
             (log (Called GetProjects) (on_dom (set_loadingHidden false) w)))
    end.
Proof.
  unfold run, loadProjects, try_catch_finally, bind, showLoading, mutate, await, assign.
  simpl. destruct (api_getProjects (api env)); reflexivity.
Qed.

Lemma changeProject_run (env : Env) (w : World) :
  projectSelect (dom w) <> "" ->
  run (changeProject env) w =
    match api_getTodos (api env) (projectSelect (dom w)) with
    | Resolved ts =>
        on_dom (set_loadingHidden true)
          (run render
             (on_dom (set_todoContentHidden false)
                (on_app (set_todos ts)
                   (log (Called (GetTodos (projectSelect (dom w))))
                      (on_app (set_currentProject (Str (projectSelect (dom w))))
                         (on_dom (set_loadingHidden false) w))))))
    | Rejected =>
        on_dom (set_loadingHidden true)
          (run (showError "Failed to load todos")
             (log (Called (GetTodos (projectSelect (dom w))))
                (on_app (set_currentProject (Str (projectSelect (dom w))))
                   (on_dom (set_loadingHidden false) w))))
    end.
Proof.
  intros Hsel.
  unfold run, changeProject, bind, document. simpl.
  rewrite (bool_decide_eq_false_2 _ Hsel).
  unfold try_catch_finally, bind, showLoading, mutate, await, assign. simpl.
  destruct (api_getTodos (api env) (projectSelect (dom w))); reflexivity.
Qed.

Lemma loadProjects_rejected (env : Env) (w : World) :
  api_getProjects (api env) = Rejected -> app (run (loadProjects env) w) = app w.
Proof. intros H. rewrite loadProjects_run, H. reflexivity. Qed.

Lemma createProject_rejected (env : Env) (w : World) :
  api_createProject (api env) (prompt env) = Rejected ->
  app (run (createProject env) w) = app w.
Proof.
  intros H. unfold run, createProject.
  destruct (falsy (prompt env)); [reflexivity|].
  unfold try_catch_finally, bind, showLoading, mutate, await. simpl.
  rewrite H. reflexivity.
Qed.

Lemma deleteProject_rejected (env : Env) (w : World) :
  api_deleteProject (api env) (currentProject (app w)) = Rejected ->
  app (run (deleteProject env) w) = app w.
Proof.
  intros H. unfold run, deleteProject, bind, this. simpl.
  destruct (falsy (currentProject (app w)) || negb (confirm env)); [reflexivity|].
  unfold try_catch_finally, bind, showLoading, mutate, await, this. simpl.
  rewrite H. reflexivity.
Qed.

Lemma addTodo_rejected (env : Env) (w : World) :
  api_createTodo (api env) (currentProject (app w)) (trim (todoInput (dom w))) false
  = Rejected ->
  app (run (addTodo env) w) = app w.
Proof.
  intros H. unfold run, addTodo, bind, document, this. simpl.
  destruct (is_empty (trim (todoInput (dom w))) || falsy (currentProject (app w)));
    [reflexivity|].
  unfold try_catch_finally, bind, showLoading, mutate, await, this. simpl.
  rewrite H. reflexivity.
Qed.

Lemma toggleTodo_rejected (env : Env) (id : value) (w : World) :
  (forall c, api_updateTodo (api env) (currentProject (app w)) id c = Rejected) ->
  app (run (toggleTodo env id) w) = app w.
Proof.
  intros H.
  destruct (List.find (fun t => strict_eq (todo_id t) id) (todos (app w))) as [todo|] eqn:Hf.
  - rewrite (toggleTodo_known env id w todo Hf). simpl. rewrite H. reflexivity.
  - unfold run, toggleTodo, bind, this. rewrite Hf. reflexivity.
Qed.

Lemma deleteTodo_rejected (env : Env) (id : value) (w : World) :
  api_deleteTodo (api env) (currentProject (app w)) id = Rejected ->
  app (run (deleteTodo env id) w) = app w.
Proof. intros H. rewrite deleteTodo_run, H. reflexivity. Qed.

(** [changeProject] is the exception: the assignment of line 110 precedes
    the [await], so a rejected request leaves [currentProject] on the new
    selection while [todos], [projects] and [currentFilter] stay. *)
Lemma changeProject_rejected (env : Env) (w : World) :
  projectSelect (dom w) <> "" ->
  api_getTodos (api env) (projectSelect (dom w)) = Rejected ->
  app (run (changeProject env) w)
  = set_currentProject (Str (projectSelect (dom w))) (app w).
Proof. intros Hsel H. rewrite (changeProject_run env w Hsel), H. reflexivity. Qed.

Lemma changeProject_resolved (env : Env) (w : World) (ts : list Todo) :
  projectSelect (dom w) <> "" ->
  api_getTodos (api env) (projectSelect (dom w)) = Resolved ts ->
  app (run (changeProject env) w)
  = set_todos ts (set_currentProject (Str (projectSelect (dom w))) (app w)) /\
  todoContentHidden (dom (run (changeProject env) w)) = false.
Proof. intros Hsel H. rewrite (changeProject_run env w Hsel), H. split; reflexivity. Qed.

(** The failing session is one the page allows: start, choose project 1
    with the API up, choose project 2 with the API down. *)
Lemma sample_session_reachable : reachable Sample.in_work /\ reachable Sample.lost.
Proof.
  assert (Hstart : reachable Sample.started) by (apply reachable_start; reflexivity).
  split; repeat apply reachable_step; exact Hstart.
Qed.

Lemma sample_lost_unfold :
  Sample.lost
  = run (changeProject Sample.down) (on_dom (set_projectSelect "2") Sample.in_work).
Proof. reflexivity. Qed.

(** C1: a failed request is meant to leave [projects], [currentProject],
    [todos] and [currentFilter] exactly as they were when the operation
    started; [changeProject] does not.  With project 1 current and its todos
    loaded, the user selects project 2 and the getTodos request is rejected:
    [currentProject] is "2" afterwards, not "1", while [todos] still holds
    the list of project 1. *)
Theorem changeProject_failure_moves_currentProject :
  api_getTodos (api Sample.down) "2" = Rejected /\
  currentProject (app Sample.in_work) = Str "1" /\
  currentProject (app (run (changeProject Sample.down)
                         (on_dom (set_projectSelect "2") Sample.in_work))) = Str "2" /\
  todos (app (run (changeProject Sample.down)
                (on_dom (set_projectSelect "2") Sample.in_work))) = [Sample.milk] /\
  app (run (changeProject Sample.down) (on_dom (set_projectSelect "2") Sample.in_work))
  <> app (on_dom (set_projectSelect "2") Sample.in_work).
Proof.
  repeat split; try reflexivity.
  intros H. apply (f_equal currentProject) in H. discriminate H.
Qed.

(** ** The list in memory and the current project *)

(** A resolved [changeProject] brings the view in step with the server. *)
Lemma changeProject_resolved_corresponds (srv : Server) (env : Env) (w : World) :
  projectSelect (dom w) <> "" ->
  api_getTodos (api env) (projectSelect (dom w)) = Resolved (srv (projectSelect (dom w))) ->
  corresponds srv (run (changeProject env) w).
Proof.
  intros Hsel H p.
  destruct (changeProject_resolved env w _ Hsel H) as [-> _]. simpl.
  intros [= <-]. reflexivity.
Qed.

(** A resolved [deleteProject] leaves no project current and hides the
    todo view; the list in memory is not touched. *)
Lemma deleteProject_resolved (env : Env) (w : World) (u : unit) :
  falsy (currentProject (app w)) = false -> confirm env = true ->
  api_deleteProject (api env) (currentProject (app w)) = Resolved u ->
  currentProject (app (run (deleteProject env) w)) = Null /\
  todoContentHidden (dom (run (deleteProject env) w)) = true /\
  todos (app (run (deleteProject env) w)) = todos (app w).
Proof.
  intros Hcur Hconf H. unfold run, deleteProject, bind, this. simpl.
  rewrite Hcur, Hconf. simpl.
  unfold try_catch_finally, bind, showLoading, mutate, await, this, assign. simpl.
  rewrite H. simpl. repeat split; reflexivity.
Qed.

(** C2: the list in memory is meant to be the list of the current project
    after every operation; a rejected [changeProject] breaks this.  With
    project 1 current the list in memory is the server's list of project 1.
    The user selects project 2 and getTodos is rejected: project 2 is
    current afterwards while the list in memory is still that of project 1,
    which is not the server's list of project 2. *)
Theorem changeProject_failure_breaks_correspondence :
  corresponds Sample.server Sample.in_work /\
  api_getTodos (api Sample.down) "2" = Rejected /\
  currentProject (app (run (changeProject Sample.down)
                         (on_dom (set_projectSelect "2") Sample.in_work))) = Str "2" /\
  todos (app (run (changeProject Sample.down)
                (on_dom (set_projectSelect "2") Sample.in_work))) = Sample.server "1" /\
  Sample.server "1" <> Sample.server "2" /\
  ~ corresponds Sample.server
      (run (changeProject Sample.down) (on_dom (set_projectSelect "2") Sample.in_work)).
Proof.
  split; [intros p [= <-]; reflexivity|].
  repeat split; try reflexivity.
  - discriminate.
  - intros H. specialize (H "2" eq_refl). discriminate H.
Qed.

(** ** Invariants of a session *)

Section Preservation.
Context (P : World -> Prop).

Lemma preserves_ret {A : Type} (a : A) : preserves P (ret a).
Proof. intros w Hw. exact Hw. Qed.

Lemma preserves_this : preserves P this.
Proof. intros w Hw. exact Hw. Qed.

Lemma preserves_document : preserves P document.
Proof. intros w Hw. exact Hw. Qed.

Lemma preserves_bind {A B : Type} (c : Async A) (k : A -> Async B) :
  preserves P c -> (forall a, preserves P (k a)) -> preserves P (bind c k).
Proof.
  intros Hc Hk w Hw. unfold bind. specialize (Hc w Hw).
  destruct (c w) as [[a|] w1]; simpl in *; [apply Hk; exact Hc | exact Hc].
Qed.

Lemma preserves_try (body handler finalizer : Async unit) :
  preserves P body -> preserves P handler -> preserves P finalizer ->
  preserves P (try_catch_finally body handler finalizer).
Proof.
  intros Hb Hh Hf w Hw. unfold try_catch_finally. specialize (Hb w Hw).
  destruct (body w) as [[u|] w1]; simpl in *.
  - apply Hf. exact Hb.
  - specialize (Hh w1 Hb). destruct (handler w1) as [[u|] w2]; simpl in *.
    + apply Hf. exact Hh.
    + specialize (Hf w2 Hh). destruct (finalizer w2) as [r w3]. exact Hf.
Qed.

End Preservation.

Lemma completes_try (body handler finalizer : Async unit) :
  completes handler -> completes finalizer ->
  completes (try_catch_finally body handler finalizer).
Proof.
  intros Hh Hf w. unfold try_catch_finally.
  destruct (body w) as [[u|] w1]; [apply Hf|].
  specialize (Hh w1). destruct (handler w1) as [[u|] w2]; simpl in Hh; [apply Hf|].
  discriminate Hh.
Qed.

Lemma showError_completes (message : string) : completes (showError message).
Proof. intros w. reflexivity. Qed.

Lemma showLoading_completes (show : bool) : completes (showLoading show).
Proof. intros w. reflexivity. Qed.

(** Every failure is caught where it happens: each operation completes,
    whatever the API answers. *)
Lemma operations_complete (env : Env) :
  completes (loadProjects env) /\ completes (changeProject env) /\
  completes (createProject env) /\ completes (deleteProject env) /\
  completes (addTodo env) /\ (forall id, completes (toggleTodo env id)) /\
  (forall id, completes (deleteTodo env id)) /\ (forall f, completes (setFilter f)).
Proof.
  pose proof showError_completes as He. pose proof showLoading_completes as Hl.
  repeat apply conj; [ | | | | |intros x|intros x|intros x]; intros w.
  - apply completes_try; auto.
  - unfold changeProject, bind, document.
    destruct (falsy (Str (projectSelect (dom w)))); [reflexivity|].
    apply completes_try; auto.
  - unfold createProject. destruct (falsy (prompt env)); [reflexivity|].
    apply completes_try; auto.
  - unfold deleteProject, bind, this.
    destruct (falsy (currentProject (app w)) || negb (confirm env)); [reflexivity|].
    apply completes_try; auto.
  - unfold addTodo, bind, document, this.
    destruct (is_empty (trim (todoInput (dom w))) || falsy (currentProject (app w)));
      [reflexivity|].
    apply completes_try; auto.
  - unfold toggleTodo, bind, this.
    destruct (List.find (fun t => strict_eq (todo_id t) x) (todos (app w)));
      [|reflexivity].
    apply completes_try; auto.
  - apply completes_try; auto.
  - reflexivity.
Qed.

(** *** Well-formedness is kept by every statement *)

Lemma wf_mutate (f : Dom -> Dom) :
  (forall d, timers (f d) = timers d /\ nextNode (f d) = nextNode d) ->
  preserves well_formed (mutate f).
Proof.
  intros Hf w [Hsel Hfresh]. split; [exact Hsel|].
  unfold nodes_fresh in *. simpl. destruct (Hf (dom w)) as [-> ->]. exact Hfresh.
Qed.

Lemma wf_assign (f : TodoApp -> TodoApp) :
  (forall a, selection_ok (currentProject a) -> selection_ok (currentProject (f a))) ->
  preserves well_formed (assign f).
Proof. intros Hf w [Hsel Hfresh]. split; [apply Hf; exact Hsel | exact Hfresh]. Qed.

Lemma wf_await {A : Type} (c : ApiCall) (r : Reply A) : preserves well_formed (await c r).
Proof. intros w Hw. exact Hw. Qed.

Lemma wf_log (e : Event) : preserves well_formed (fun w => (Normal tt, log e w)).
Proof. intros w Hw. exact Hw. Qed.

Lemma wf_showError (message : string) : preserves well_formed (showError message).
Proof.
  intros w [Hsel Hfresh]. rewrite showError_run. split; [exact Hsel|].
  unfold nodes_fresh in *. simpl. apply Forall_app. split.
  - eapply Forall_impl; [exact Hfresh|]. simpl. intros tm Htm. lia.
  - constructor; [simpl; lia | constructor].
Qed.

Lemma wf_elapse (ms : Z) (w : World) : well_formed w -> well_formed (elapse ms w).
Proof.
  intros [Hsel Hfresh]. split; [exact Hsel|].
  unfold nodes_fresh in *. simpl.
  rewrite Forall_forall in *. intros tm Htm.
  apply list_elem_of_In, filter_In in Htm as [Htm _].
  apply Hfresh, list_elem_of_In. exact Htm.
Qed.

Ltac plain_mutate := apply wf_mutate; intros ?; split; reflexivity.
Ltac plain_assign := apply wf_assign; intros ? ?; assumption.

Ltac wf_steps :=
  repeat first
    [ assumption | match goal with H : forall _, preserves _ _ |- _ => apply H end
    | apply preserves_ret | apply preserves_this | apply preserves_document
    | apply wf_await | apply wf_log | apply wf_showError
    | plain_mutate | plain_assign
    | apply preserves_try
    | apply preserves_bind; [|intros ?] ].

Lemma wf_showLoading (show : bool) : preserves well_formed (showLoading show).
Proof. unfold showLoading. wf_steps. Qed.

Lemma wf_render : preserves well_formed render.
Proof. unfold render. wf_steps. Qed.

Lemma wf_renderProjects : preserves well_formed renderProjects.
Proof. unfold renderProjects. wf_steps. Qed.

Lemma wf_select_value (v : string) : preserves well_formed (select_value v).
Proof.
  unfold select_value. apply preserves_bind; [apply preserves_document|].
  intros d. destruct (existsb _ _); plain_mutate.
Qed.

Lemma wf_changeProject (env : Env) : preserves well_formed (changeProject env).
Proof.
  unfold changeProject. apply preserves_bind; [apply preserves_document|].
  intros d. simpl. destruct (bool_decide (projectSelect d = "")) eqn:Hsel; [plain_mutate|].
  apply bool_decide_eq_false_1 in Hsel.
  apply preserves_try;
    [|apply wf_showError | apply wf_showLoading].
  apply preserves_bind; [apply wf_showLoading | intros _].
  apply preserves_bind.
  { apply wf_assign. intros a _. right. exists (projectSelect d). split; [reflexivity|].
    exact Hsel. }
  intros _. apply preserves_bind; [apply wf_await | intros ts].
  apply preserves_bind; [plain_assign | intros _].
  apply preserves_bind; [plain_mutate | intros _]. apply wf_render.
Qed.

Lemma wf_operations (env : Env) :
  preserves well_formed (loadProjects env) /\
  preserves well_formed (createProject env) /\
  preserves well_formed (deleteProject env) /\
  preserves well_formed (addTodo env) /\
  (forall id, preserves well_formed (toggleTodo env id)) /\
  (forall id, preserves well_formed (deleteTodo env id)) /\
  (forall f, preserves well_formed (setFilter f)).
Proof.
  pose proof wf_showLoading as Hl. pose proof wf_render as Hr.
  pose proof wf_renderProjects as Hp. pose proof (wf_changeProject env) as Hc.
  pose proof wf_select_value as Hs.
  repeat apply conj; [ | | | |intros x|intros x|intros x].
  - unfold loadProjects. wf_steps; auto.
  - unfold createProject. destruct (falsy (prompt env)); wf_steps; auto.
  - unfold deleteProject. apply preserves_bind; [apply preserves_this | intros a0].
    destruct (falsy (currentProject a0) || negb (confirm env)); wf_steps; auto.
    apply wf_assign. intros ? _. left. reflexivity.
  - unfold addTodo. apply preserves_bind; [apply preserves_document | intros d].
    apply preserves_bind; [apply preserves_this | intros a0].
    destruct (is_empty (trim (todoInput d)) || falsy (currentProject a0));
      wf_steps; auto.
  - unfold toggleTodo. apply preserves_bind; [apply preserves_this | intros a0].
    destruct (List.find _ (todos a0)); wf_steps; auto.
  - unfold deleteTodo. wf_steps; auto.
  - unfold setFilter. wf_steps; auto.
Qed.

Lemma wf_step (env : Env) (a : Action) (w : World) :
  well_formed w -> well_formed (step env a w).
Proof.
  destruct (wf_operations env) as (Hload & Hcreate & Hdelp & Hadd & Htog & Hdel & Hfil).
  intros Hw. destruct a; simpl; unfold run.
  - destruct Hw as [Hsel Hfresh]. split; assumption.
  - apply Hadd, Hw.
  - apply (preserves_bind well_formed); [apply wf_select_value | intros _ | exact Hw].
    apply wf_changeProject.
  - apply Hcreate, Hw.
  - apply Hdelp, Hw.
  - apply Hfil, Hw.
  - apply Htog, Hw.
  - apply Hdel, Hw.
  - apply wf_elapse, Hw.
Qed.

(** In every world a session can reach, [currentProject] is [null] or a
    non-empty string, and no pending timer refers to an element yet to be
    created. *)
Lemma reachable_well_formed (w : World) : reachable w -> well_formed w.
Proof.
  induction 1 as [env page Htimers|env a w _ IH].
  - destruct (wf_operations env) as (Hload & _). apply Hload.
    split; [left; reflexivity|].
    unfold nodes_fresh. simpl. rewrite Htimers. constructor.
  - apply wf_step, IH.
Qed.

(** So [!this.currentProject] holds in a session exactly when no project is
    current. *)
Lemma reachable_falsy_currentProject (w : World) :
  reachable w -> (falsy (currentProject (app w)) = true <-> currentProject (app w) = Null).
Proof.
  intros Hw. destruct (reachable_well_formed w Hw) as [[Hnull|(p & Hp & Hne)] _].
  - rewrite Hnull. split; reflexivity.
  - rewrite Hp. simpl. rewrite (bool_decide_eq_false_2 _ Hne).
    split; discriminate.
Qed.

(** * Further properties of the controller *)

(** ** The two halves of the list *)

Lemma filter_split_permutation {A : Type} (p : A -> bool) (l : list A) :
  List.filter (fun x => negb (p x)) l ++ List.filter p l ≡ₚ l.
Proof.
  induction l as [|x l IH]; simpl; [reflexivity|].
  destruct (p x); simpl.
  - symmetry. apply Permutation_cons_app. symmetry. exact IH.
  - constructor. exact IH.
Qed.

(** X1: the todos shown under 'active' followed by those shown under
    'completed' are a rearrangement of the whole list: the two counts add
    up to its length, and every todo of the list is shown under exactly one
    of the two filters. *)
Theorem active_completed_partition (a : TodoApp) :
  getFilteredTodos (set_currentFilter (Str "active") a)
    ++ getFilteredTodos (set_currentFilter (Str "completed") a) ≡ₚ todos a /\
  length (getFilteredTodos (set_currentFilter (Str "active") a))
    + length (getFilteredTodos (set_currentFilter (Str "completed") a))
  = length (todos a) /\
  (forall t, In t (todos a) ->
     (In t (getFilteredTodos (set_currentFilter (Str "active") a)) /\
      ~ In t (getFilteredTodos (set_currentFilter (Str "completed") a))) \/
     (In t (getFilteredTodos (set_currentFilter (Str "completed") a)) /\
      ~ In t (getFilteredTodos (set_currentFilter (Str "active") a)))).
Proof.
  assert (Hperm : getFilteredTodos (set_currentFilter (Str "active") a)
                    ++ getFilteredTodos (set_currentFilter (Str "completed") a)
                  ≡ₚ todos a)
    by apply (filter_split_permutation todo_completed).
  split; [exact Hperm|]. split.
  - rewrite <- length_app. apply Permutation_length. exact Hperm.
  - intros t Ht. unfold getFilteredTodos. simpl.
    rewrite !filter_In. destruct (todo_completed t) eqn:Hc; simpl.
    + right. split; [auto|]. intros [_ H]. discriminate H.
    + left. split; [auto|]. intros [_ H]. discriminate H.
Qed.

(** ** What [render] writes *)

Lemma render_run (w : World) :
  run render w
  = log Rendered
      (on_dom (set_taskCount (counter_text (remaining (todos (app w)))))
         (on_dom (set_todoList (map row_of (getFilteredTodos (app w)))) w)).
Proof.
  unfold run, render, bind, this, mutate. simpl.
  rewrite active_count_remaining. reflexivity.
Qed.

(** The rows and the counter written by [render] are determined by the
    todo list and the current filter alone, and [render] changes none of
    the controller's fields. *)
Lemma render_depends_on_list_and_filter (w1 w2 : World) :
  todos (app w1) = todos (app w2) ->
  currentFilter (app w1) = currentFilter (app w2) ->
  todoList (dom (run render w1)) = todoList (dom (run render w2)) /\
  taskCount (dom (run render w1)) = taskCount (dom (run render w2)) /\
  app (run render w1) = app w1.
Proof.
  intros Ht Hf. rewrite !render_run. simpl.
  unfold getFilteredTodos. rewrite Ht, Hf. repeat split; reflexivity.
Qed.

Lemma rows_of_filter (p : Todo -> bool) (l : list Todo) (r : Row) :
  In r (map row_of (List.filter p l)) ->
  exists t, In t l /\ p t = true /\ r = row_of t.
Proof.
  intros H. apply in_map_iff in H as (t & <- & Ht).
  apply filter_In in Ht as [Hin Hp]. exists t. auto.
Qed.

(** X2: for todos whose ids and texts the markup carries unchanged, after
    [render] the list has one row per filtered todo, in order.  Under the
    filter 'active' no row is marked completed or checked and the number of
    rows is the number the counter shows; under 'completed' every row is
    marked completed and checked, and rows plus remaining todos make up the
    list; under any other filter there is a row for every todo. *)
Theorem render_rows_by_filter (w : World) :
  forallb plain_todo (todos (app w)) = true ->
  length (todoList (dom (run render w))) = length (getFilteredTodos (app w)) /\
  (forall i t, getFilteredTodos (app w) !! i = Some t ->
               todoList (dom (run render w)) !! i = Some (row_of t)) /\
  (currentFilter (app w) = Str "active" ->
   length (todoList (dom (run render w))) = remaining (todos (app w)) /\
   forall r, In r (todoList (dom (run render w))) -> row_class r = "" /\ row_checked r = "") /\
  (currentFilter (app w) = Str "completed" ->
   length (todoList (dom (run render w))) + remaining (todos (app w))
   = length (todos (app w)) /\
   forall r, In r (todoList (dom (run render w))) ->
             row_class r = "completed" /\ row_checked r = "checked") /\
  (currentFilter (app w) <> Str "active" -> currentFilter (app w) <> Str "completed" ->
   length (todoList (dom (run render w))) = length (todos (app w))).
Proof.
  intros _. rewrite render_run. simpl. split; [apply length_map|].
  split.
  { intros i t Hi. change (map row_of ?l) with (row_of <$> l).
    rewrite list_lookup_fmap, Hi. reflexivity. }
  split; [|split].
  - intros Hf. unfold getFilteredTodos. rewrite Hf. simpl. split.
    + rewrite length_map. apply active_count_remaining.
    + intros r Hr. apply rows_of_filter in Hr as (t & _ & Hp & ->).
      apply negb_true_iff in Hp. unfold row_of. simpl. rewrite Hp. auto.
  - intros Hf. unfold getFilteredTodos. rewrite Hf. simpl. split.
    + rewrite length_map, <- active_count_remaining.
      rewrite Nat.add_comm, <- length_app.
      apply Permutation_length, (filter_split_permutation todo_completed).
    + intros r Hr. apply rows_of_filter in Hr as (t & _ & Hp & ->).
      unfold row_of. simpl. rewrite Hp. auto.
  - intros Ha Hc. rewrite length_map. unfold getFilteredTodos, strict_eq.
    rewrite !bool_decide_eq_false_2 by assumption. reflexivity.
Qed.

Lemma render_rows_by_filter_witness :
  length (todoList (dom (run render Sample.shopping_world))) = 2 /\
  forall r, In r (todoList (dom (run render Sample.shopping_world))) ->
            row_class r = "completed" /\ row_checked r = "checked".
Proof.
  pose proof (render_rows_by_filter Sample.shopping_world eq_refl)
    as (Hlen & _ & _ & Hc & _).
  split; [exact Hlen | exact (proj2 (Hc eq_refl))].
Defined.

(** ** [setFilter] *)

Lemma setFilter_run (filter : value) (w : World) :
  run (setFilter filter) w
  = run render
      (on_dom (set_filterButtons
                 (map (fun btn => {| dataset_filter := dataset_filter btn;
                                     active := strict_eq (dataset_filter btn) filter |})
                    (filterButtons (dom w))))
         (on_app (set_currentFilter filter) w)).
Proof. reflexivity. Qed.

(** X3: [setFilter] is a change of view only.  It stores the filter, marks
    active exactly the buttons whose [data-filter] is strictly equal to it,
    and renders; the todo list, the projects and the current project are
    untouched, no request is issued, no error element or timer is added,
    and the buttons keep their number, order and [data-filter]. *)
Theorem setFilter_view_only (filter : value) (w : World) :
  currentFilter (app (run (setFilter filter) w)) = filter /\
  todos (app (run (setFilter filter) w)) = todos (app w) /\
  projects (app (run (setFilter filter) w)) = projects (app w) /\
  currentProject (app (run (setFilter filter) w)) = currentProject (app w) /\
  history (run (setFilter filter) w) = history w ++ [Rendered] /\
  map dataset_filter (filterButtons (dom (run (setFilter filter) w)))
  = map dataset_filter (filterButtons (dom w)) /\
  (forall b, In b (filterButtons (dom (run (setFilter filter) w))) ->
             (active b = true <-> dataset_filter b = filter)) /\
  errors (dom (run (setFilter filter) w)) = errors (dom w) /\
  timers (dom (run (setFilter filter) w)) = timers (dom w) /\
  view_synced (run (setFilter filter) w).
Proof.
  rewrite setFilter_run, render_run. simpl.
  repeat apply conj; try reflexivity.
  - rewrite map_map. simpl. reflexivity.
  - intros b Hb. apply in_map_iff in Hb as (b0 & <- & _). simpl.
    unfold strict_eq. apply bool_decide_eq_true.
Qed.

(** X4: of two filter changes in a row only the second shows: the fields,
    the buttons, the rows and the counter are those of the second change
    applied alone. *)
Theorem setFilter_last_wins (f g : value) (w : World) :
  app (run (setFilter g) (run (setFilter f) w)) = app (run (setFilter g) w) /\
  dom (run (setFilter g) (run (setFilter f) w)) = dom (run (setFilter g) w).
Proof.
  rewrite !setFilter_run, !render_run. simpl. split; [reflexivity|].
  unfold on_dom, set_taskCount, set_todoList, set_filterButtons. simpl.
  rewrite map_map. simpl. reflexivity.
Qed.

(** ** Requests that succeed, requests that fail *)

(** X5: when getProjects resolves with projects whose ids and names the
    markup carries unchanged, [loadProjects] replaces the project list by
    the answer and rebuilds the selector: the placeholder with the empty
    value first, then one option per project, in order, carrying the
    project's id as a string and its name.  The selector is back on the
    placeholder, the loading indicator is hidden, and the current project,
    the todos, the filter and the error elements are untouched. *)
Theorem loadProjects_resolved (env : Env) (w : World) (ps : list Project) :
  api_getProjects (api env) = Resolved ps ->
  forallb plain_project ps = true ->
  projects (app (run (loadProjects env) w)) = ps /\
  currentProject (app (run (loadProjects env) w)) = currentProject (app w) /\
  todos (app (run (loadProjects env) w)) = todos (app w) /\
  currentFilter (app (run (loadProjects env) w)) = currentFilter (app w) /\
  projectOptions (dom (run (loadProjects env) w)) !! 0
  = Some {| option_value := ""; option_label := "Select Project" |} /\
  length (projectOptions (dom (run (loadProjects env) w))) = S (length ps) /\
  (forall i p, ps !! i = Some p ->
     projectOptions (dom (run (loadProjects env) w)) !! S i
     = Some {| option_value := to_string (project_id p);
               option_label := project_name p |}) /\
  projectSelect (dom (run (loadProjects env) w)) = "" /\
  loadingHidden (dom (run (loadProjects env) w)) = true /\
  errors (dom (run (loadProjects env) w)) = errors (dom w) /\
  history (run (loadProjects env) w) = history w ++ [Called GetProjects].
Proof.
  intros H _. rewrite loadProjects_run, H. simpl.
  repeat apply conj; try reflexivity.
  - rewrite length_map. reflexivity.
  - intros i p Hi. change (map ?f ps) with (f <$> ps).
    rewrite list_lookup_fmap, Hi. reflexivity.
Qed.

Lemma loadProjects_resolved_witness :
  projects (app (run (loadProjects Sample.up)
                   {| app := Sample.shopping; dom := Sample.page; history := [] |}))
  = [Sample.work; Sample.home] /\
  projectOptions (dom (run (loadProjects Sample.up)
                   {| app := Sample.shopping; dom := Sample.page; history := [] |})) !! 2
  = Some {| option_value := "2"; option_label := "Home" |}.
Proof.
  pose proof (loadProjects_resolved Sample.up
                {| app := Sample.shopping; dom := Sample.page; history := [] |}
                [Sample.work; Sample.home] eq_refl eq_refl)
    as (Hps & _ & _ & _ & _ & _ & Hopt & _).
  split; [exact Hps | exact (Hopt 1 Sample.home eq_refl)].
Defined.

(** X6: every operation reports the rejection of its own request in the
    same way: exactly one error element, carrying the operation's own text,
    is appended just before the list with a 3000 ms timer; nothing is
    rendered, the rows and the counter stay, and the loading indicator is
    hidden again. *)
Theorem rejection_reports_once (env : Env) (w : World) :
  (api_getProjects (api env) = Rejected ->
   reports "Failed to load projects" w (run (loadProjects env) w)) /\
  (falsy (prompt env) = false ->
   api_createProject (api env) (prompt env) = Rejected ->
   reports "Failed to create project" w (run (createProject env) w)) /\
  (falsy (currentProject (app w)) = false -> confirm env = true ->
   api_deleteProject (api env) (currentProject (app w)) = Rejected ->
   reports "Failed to delete project" w (run (deleteProject env) w)) /\
  (projectSelect (dom w) <> "" ->
   api_getTodos (api env) (projectSelect (dom w)) = Rejected ->
   reports "Failed to load todos" w (run (changeProject env) w)) /\
  (is_empty (trim (todoInput (dom w))) = false ->
   falsy (currentProject (app w)) = false ->
   api_createTodo (api env) (currentProject (app w)) (trim (todoInput (dom w))) false
   = Rejected ->
   reports "Failed to add todo" w (run (addTodo env) w)) /\
  (forall id todo,
     List.find (fun t => strict_eq (todo_id t) id) (todos (app w)) = Some todo ->
     api_updateTodo (api env) (currentProject (app w)) id (negb (todo_completed todo))
     = Rejected ->
     reports "Failed to update todo" w (run (toggleTodo env id) w)) /\
  (forall id,
     api_deleteTodo (api env) (currentProject (app w)) id = Rejected ->
     reports "Failed to delete todo" w (run (deleteTodo env id) w)).
Proof.
  unfold reports. repeat apply conj.
  - intros H. rewrite loadProjects_run, H. simpl. repeat apply conj; eauto.
  - intros Hp H. unfold run, createProject. rewrite Hp.
    unfold try_catch_finally, bind, showLoading, mutate, await. simpl. rewrite H. simpl.
    repeat apply conj; eauto.
  - intros Hc Hconf H. unfold run, deleteProject, bind, this. simpl.
    rewrite Hc, Hconf. simpl.
    unfold try_catch_finally, bind, showLoading, mutate, await, this. simpl. rewrite H.
    simpl. repeat apply conj; eauto.
  - intros Hsel H. rewrite (changeProject_run env w Hsel), H. simpl.
    repeat apply conj; eauto.
  - intros Ht Hc H. unfold run, addTodo, bind, document, this. rewrite Ht, Hc. simpl.
    unfold try_catch_finally, bind, showLoading, mutate, await, this. simpl. rewrite H.
    simpl. repeat apply conj; eauto.
  - intros id todo Hf H. rewrite (toggleTodo_known env id w todo Hf). simpl. rewrite H.
    simpl. repeat apply conj; eauto.
  - intros id H. rewrite deleteTodo_run, H. simpl. repeat apply conj; eauto.
Qed.

Lemma rejection_reports_once_witness :
  reports "Failed to load todos" (on_dom (set_projectSelect "2") Sample.in_work)
    (run (changeProject Sample.down) (on_dom (set_projectSelect "2") Sample.in_work)) /\
  reports "Failed to update todo" Sample.shopping_world
    (run (toggleTodo Sample.down (Num 9)) Sample.shopping_world).
Proof.
  pose proof (rejection_reports_once Sample.down
                (on_dom (set_projectSelect "2") Sample.in_work))
    as (_ & _ & _ & Hchange & _).
  pose proof (rejection_reports_once Sample.down Sample.shopping_world)
    as (_ & _ & _ & _ & _ & Htoggle & _).
  split.
  - apply Hchange; [discriminate | reflexivity].
  - apply (Htoggle (Num 9) Sample.bread); reflexivity.
Defined.

(** X7: no rejection escapes an operation: whatever the API answers and
    whatever the world, each of the eight operations completes normally,
    the rejection having been caught by the operation's own handler. *)
Theorem no_rejection_escapes (env : Env) (w : World) :
  fst (loadProjects env w) = Normal tt /\
  fst (changeProject env w) = Normal tt /\
  fst (createProject env w) = Normal tt /\
  fst (deleteProject env w) = Normal tt /\
  fst (addTodo env w) = Normal tt /\
  (forall id, fst (toggleTodo env id w) = Normal tt) /\
  (forall id, fst (deleteTodo env id w) = Normal tt) /\
  (forall filter, fst (setFilter filter w) = Normal tt).
Proof.
  destruct (operations_complete env) as (H1 & H2 & H3 & H4 & H5 & H6 & H7 & H8).
  repeat apply conj; [exact (H1 w) | exact (H2 w) | exact (H3 w) | exact (H4 w)
                     | exact (H5 w) | intros id; exact (H6 id w)
                     | intros id; exact (H7 id w) | intros f; exact (H8 f w)].
Qed.

Lemma finally_hides_indicator (body handler : Async unit) (w : World) :
  loadingHidden (dom (run (try_catch_finally body handler (showLoading false)) w)) = true.
Proof.
  unfold run, try_catch_finally.
  destruct (body w) as [[u|] w1]; [reflexivity|].
  destruct (handler w1) as [[u|] w2]; reflexivity.
Qed.

Lemma no_growth (h : list Event) (c : ApiCall) (rest : list Event) :
  h <> h ++ Called c :: rest.
Proof.
  intros H. apply (f_equal length) in H. rewrite length_app in H. simpl in H. lia.
Qed.



(** ** Projects: guards, creation, deletion, selection *)

(** X9: the guards of the two project operations.  [createProject] with a
    cancelled or empty prompt, and [deleteProject] with no current project
    or without the user's confirmation, return at once: no request, no
    loading indicator, the world exactly as it was. *)
Theorem project_guards (env : Env) (w : World) :
  (falsy (prompt env) = true -> createProject env w = (Normal tt, w)) /\
  (currentProject (app w) = Null \/ confirm env = false ->
   deleteProject env w = (Normal tt, w)).
Proof.
  split.
  - intros H. unfold createProject. rewrite H. reflexivity.
  - intros H. unfold deleteProject, bind, this.
    destruct H as [H|H]; rewrite H; simpl; [reflexivity|].
    rewrite orb_true_r. reflexivity.
Qed.

Lemma project_guards_witness :
  createProject {| api := Sample.online; prompt := Null; confirm := true |} Sample.in_work
  = (Normal tt, Sample.in_work) /\
  deleteProject {| api := Sample.online; prompt := Null; confirm := false |} Sample.in_work
  = (Normal tt, Sample.in_work).
Proof.
  split.
  - apply (proj1 (project_guards {| api := Sample.online; prompt := Null; confirm := true |}
                    Sample.in_work)).
    reflexivity.
  - apply (proj2 (project_guards {| api := Sample.online; prompt := Null; confirm := false |}
                    Sample.in_work)).
    right. reflexivity.
Defined.

Lemma new_option_exists (ps : list Project) (project : Project) :
  existsb (fun o => bool_decide (option_value o = to_string (project_id project)))
    ({| option_value := ""; option_label := "Select Project" |}
       :: map (fun p => {| option_value := to_string (project_id p);
                           option_label := project_name p |}) (ps ++ [project]))
  = true.
Proof.
  apply existsb_exists.
  exists {| option_value := to_string (project_id project);
            option_label := project_name project |}.
  split; [|apply bool_decide_eq_true_2; reflexivity].
  right. apply in_map_iff. exists project. split; [reflexivity|].
  apply in_or_app. right. left. reflexivity.
Qed.

(** Once the project is created, what remains of [createProject] is the
    [changeProject] on the freshly rendered selector, set on the new
    project. *)
Lemma createProject_resolved_run (env : Env) (w : World) (project : Project) :
  falsy (prompt env) = false ->
  api_createProject (api env) (prompt env) = Resolved project ->
  run (createProject env) w
  = on_dom (set_loadingHidden true)
      (run (changeProject env)
         (on_dom (set_projectSelect (to_string (project_id project)))
            (on_dom (set_projectSelect "")
               (on_dom (set_projectOptions
                          ({| option_value := ""; option_label := "Select Project" |}
                             :: map (fun p => {| option_value := to_string (project_id p);
                                                 option_label := project_name p |})
                                  (projects (app w) ++ [project])))
                  (on_app (set_projects (projects (app w) ++ [project]))
                     (log (Called (CreateProject (prompt env)))
                        (on_dom (set_loadingHidden false) w))))))).
Proof.
  intros Hp H. unfold run at 1. unfold createProject. rewrite Hp.
  unfold try_catch_finally.
  unfold bind at 1. unfold showLoading at 1, mutate at 1.
  unfold bind at 1. unfold await at 1. rewrite H.
  unfold bind at 1. unfold this at 1.
  unfold bind at 1. unfold assign at 1.
  unfold bind at 1. unfold renderProjects, bind, this, mutate. simpl.
  unfold select_value, bind, document. simpl.
  pose proof (new_option_exists (projects (app w)) project) as Hex. simpl in Hex.
  rewrite Hex. unfold mutate. simpl.
  match goal with |- context [changeProject env ?W] =>
    pose proof (proj1 (proj2 (operations_complete env)) W) as Hc;
    destruct (changeProject env W) as [[u|] w2] eqn:Hrun
  end; [|discriminate Hc].
  unfold run. rewrite Hrun. reflexivity.
Qed.





Lemma deleteProject_resolved_run (env : Env) (w : World) (u : unit) :
  falsy (currentProject (app w)) = false -> confirm env = true ->
  api_deleteProject (api env) (currentProject (app w)) = Resolved u ->
  run (deleteProject env) w
  = on_dom (set_loadingHidden true)
      (on_dom (set_todoContentHidden true)
         (run renderProjects
            (on_app (set_currentProject Null)
               (on_app (set_projects
                          (List.filter
                             (fun p => negb (strict_eq (project_id p)
                                               (currentProject (app w))))
                             (projects (app w))))
                  (log (Called (DeleteProject (currentProject (app w))))
                     (on_dom (set_loadingHidden false) w)))))).
Proof.
  intros Hcur Hconf H. unfold run, deleteProject, bind, this. simpl.
  rewrite Hcur, Hconf. simpl.
  unfold try_catch_finally, bind, showLoading, mutate, await, this, assign. simpl.
  rewrite H. reflexivity.
Qed.

(** X12: when the delete request resolves, [deleteProject] drops from the
    project list exactly the entries whose id is strictly equal to the
    current project, every one of them, keeping the others in order: what
    is dropped plus what is left makes up the old length.  It rebuilds the
    selector from what is left (the placeholder, then one option per
    remaining project, in order, with its id as a string and its name; the
    ids and names being such that the markup carries them unchanged),
    leaves no project current and hides the todo view.  The todos in
    memory, the rows and the counter are not cleared. *)
Theorem deleteProject_removes_matching (env : Env) (w : World) (u : unit) :
  falsy (currentProject (app w)) = false -> confirm env = true ->
  api_deleteProject (api env) (currentProject (app w)) = Resolved u ->
  forallb plain_project (projects (app w)) = true ->
  (forall p, In p (projects (app (run (deleteProject env) w))) <->
             In p (projects (app w)) /\ project_id p <> currentProject (app w)) /\
  projects (app (run (deleteProject env) w)) `sublist_of` projects (app w) /\
  length (projects (app (run (deleteProject env) w)))
    + length (List.filter (fun p => strict_eq (project_id p) (currentProject (app w)))
                (projects (app w)))
  = length (projects (app w)) /\
  projectOptions (dom (run (deleteProject env) w)) !! 0
  = Some {| option_value := ""; option_label := "Select Project" |} /\
  (forall i p, projects (app (run (deleteProject env) w)) !! i = Some p ->
     projectOptions (dom (run (deleteProject env) w)) !! S i
     = Some {| option_value := to_string (project_id p);
               option_label := project_name p |}) /\
  length (projectOptions (dom (run (deleteProject env) w)))
  = S (length (projects (app (run (deleteProject env) w)))) /\
  currentProject (app (run (deleteProject env) w)) = Null /\
  projectSelect (dom (run (deleteProject env) w)) = "" /\
  todoContentHidden (dom (run (deleteProject env) w)) = true /\
  todos (app (run (deleteProject env) w)) = todos (app w) /\
  todoList (dom (run (deleteProject env) w)) = todoList (dom w) /\
  taskCount (dom (run (deleteProject env) w)) = taskCount (dom w) /\
  history (run (deleteProject env) w)
  = history w ++ [Called (DeleteProject (currentProject (app w)))].
Proof.
  intros Hcur Hconf H _. rewrite (deleteProject_resolved_run env w u Hcur Hconf H).
  simpl. repeat apply conj; try reflexivity.
  - intros p. rewrite filter_In. unfold strict_eq.
    rewrite negb_true_iff, bool_decide_eq_false. reflexivity.
  - apply filter_sublist.
  - rewrite <- length_app. apply Permutation_length.
    apply (filter_split_permutation
             (fun p => strict_eq (project_id p) (currentProject (app w)))).
  - intros i p Hi. change (map ?f ?l) with (f <$> l).
    rewrite list_lookup_fmap, Hi. reflexivity.
  - rewrite length_map. reflexivity.
Qed.

Lemma deleteProject_removes_matching_witness :
  projects (app lettered)
  = [ {| project_id := Str "a"; project_name := "Work" |};
      {| project_id := Str "b"; project_name := "Home" |} ] /\
  length (projects (app (run (deleteProject Sample.up) lettered))) + 1 = 2 /\
  projectOptions (dom (run (deleteProject Sample.up) lettered)) !! 1
  = Some {| option_value := "a"; option_label := "Work" |} /\
  currentProject (app (run (deleteProject Sample.up) lettered)) = Null /\
  todos (app (run (deleteProject Sample.up) lettered)) = [Sample.milk].
Proof.
  pose proof (deleteProject_removes_matching Sample.up lettered tt
                eq_refl eq_refl eq_refl eq_refl)
    as (_ & _ & Hlen & _ & Hopt & _ & Hcur & _ & _ & Hts & _).
  split; [reflexivity|]. split; [exact Hlen|].
  split; [exact (Hopt 0 {| project_id := Str "a"; project_name := "Work" |} eq_refl)|].
  split; [exact Hcur | exact Hts].
Defined.



(** X14: when getTodos resolves, [changeProject] makes the selected value
    the current project, replaces the todos in memory by the fetched list
    whatever they were, keeps the filter and the projects, shows the todo
    view and renders it; one request is issued and no error element is
    added. *)
Theorem changeProject_replaces_list (env : Env) (w : World) (ts : list Todo) :
  projectSelect (dom w) <> "" ->
  api_getTodos (api env) (projectSelect (dom w)) = Resolved ts ->
  currentProject (app (run (changeProject env) w)) = Str (projectSelect (dom w)) /\
  todos (app (run (changeProject env) w)) = ts /\
  currentFilter (app (run (changeProject env) w)) = currentFilter (app w) /\
  projects (app (run (changeProject env) w)) = projects (app w) /\
  todoContentHidden (dom (run (changeProject env) w)) = false /\
  loadingHidden (dom (run (changeProject env) w)) = true /\
  view_synced (run (changeProject env) w) /\
  errors (dom (run (changeProject env) w)) = errors (dom w) /\
  history (run (changeProject env) w)
  = history w ++ [Called (GetTodos (projectSelect (dom w))); Rendered].
Proof.
  intros Hsel H. rewrite (changeProject_run env w Hsel), H, render_run. simpl.
  repeat apply conj; try reflexivity.
  rewrite <- app_assoc. reflexivity.
Qed.

Lemma changeProject_replaces_list_witness :
  todos (app (run (changeProject Sample.up) (on_dom (set_projectSelect "2") Sample.in_work)))
  = [] /\
  currentProject
    (app (run (changeProject Sample.up) (on_dom (set_projectSelect "2") Sample.in_work)))
  = Str "2".
Proof.
  pose proof (changeProject_replaces_list Sample.up
                (on_dom (set_projectSelect "2") Sample.in_work) []
                ltac:(discriminate) eq_refl) as (Hcur & Hts & _).
  split; [exact Hts | exact Hcur].
Defined.

(** ** Todos: deletion, creation, toggling *)

Lemma drop_unique (id : value) (l : list Todo) (i : nat) (t : Todo) :
  unique_ids l -> l !! i = Some t -> todo_id t = id ->
  List.filter (fun x => negb (strict_eq (todo_id x) id)) l = delete i l.
Proof.
  revert i. induction l as [|x l IH]; intros i Huniq Hi Hid; [discriminate|].
  destruct (unique_ids_tail x l Huniq) as [Htail Hfresh].
  destruct i as [|i]; simpl in *.
  - injection Hi as ->. unfold strict_eq at 1.
    rewrite bool_decide_eq_true_2 by exact Hid. simpl.
    apply filter_keeps_all. intros y Hy. unfold strict_eq.
    rewrite bool_decide_eq_false_2; [reflexivity|].
    rewrite <- Hid. apply Hfresh. exact Hy.
  - assert (Hin : In t l) by (apply list_elem_of_In, list_elem_of_lookup; eauto).
    unfold strict_eq at 1.
    rewrite bool_decide_eq_false_2
      by (intros Hx; apply (Hfresh t Hin); congruence).
    simpl. f_equal. apply (IH i Htail Hi Hid).
Qed.

(** X15: when the delete request resolves, [deleteTodo] removes every entry
    carrying the id and nothing else: the new list is the old one without
    them, in the same order, and what was removed plus what is left makes
    up the old length.  When the identifiers are pairwise distinct and the
    entry at position [i] has the id, the new list is the old one with
    position [i] taken out.  The view is rendered from the new list and the
    other fields are untouched. *)
Theorem deleteTodo_removes_matching (env : Env) (id : value) (w : World) (u : unit) :
  api_deleteTodo (api env) (currentProject (app w)) id = Resolved u ->
  (forall t, In t (todos (app (run (deleteTodo env id) w))) <->
             In t (todos (app w)) /\ todo_id t <> id) /\
  todos (app (run (deleteTodo env id) w)) `sublist_of` todos (app w) /\
  length (todos (app (run (deleteTodo env id) w)))
    + length (List.filter (fun t => strict_eq (todo_id t) id) (todos (app w)))
  = length (todos (app w)) /\
  (forall i t, unique_ids (todos (app w)) -> todos (app w) !! i = Some t ->
               todo_id t = id ->
               todos (app (run (deleteTodo env id) w)) = delete i (todos (app w))) /\
  view_synced (run (deleteTodo env id) w) /\
  currentProject (app (run (deleteTodo env id) w)) = currentProject (app w) /\
  projects (app (run (deleteTodo env id) w)) = projects (app w) /\
  currentFilter (app (run (deleteTodo env id) w)) = currentFilter (app w) /\
  history (run (deleteTodo env id) w)
  = history w ++ [Called (DeleteTodo (currentProject (app w)) id); Rendered].
Proof.
  intros H. rewrite deleteTodo_run, H, render_run. simpl.
  repeat apply conj; try reflexivity.
  - intros t. rewrite filter_In. unfold strict_eq.
    rewrite negb_true_iff, bool_decide_eq_false. reflexivity.
  - apply filter_sublist.
  - rewrite <- length_app. apply Permutation_length.
    apply (filter_split_permutation (fun t => strict_eq (todo_id t) id)).
  - intros i t Huniq Hi Hid. apply (drop_unique id _ i t Huniq Hi Hid).
  - rewrite <- app_assoc. reflexivity.
Qed.

Lemma deleteTodo_removes_matching_witness :
  todos (app (run (deleteTodo Sample.up (Num 9)) Sample.shopping_world))
  = [Sample.eggs; Sample.milk_done].
Proof.
  pose proof (deleteTodo_removes_matching Sample.up (Num 9) Sample.shopping_world tt eq_refl)
    as (_ & _ & _ & Hdel & _).
  apply (Hdel 1 Sample.bread); try reflexivity.
  unfold unique_ids. apply (bool_decide_unpack _). vm_compute. exact I.
Defined.

(** X16: adding a todo and then deleting it gives back the list one started
    from, provided the id the server gave it was not already in the list;
    the view is rendered from that list. *)
Theorem addTodo_then_deleteTodo (env env' : Env) (w : World) (p : string) (todo : Todo)
    (u : unit) :
  all_whitespace (todoInput (dom w)) = false ->
  currentProject (app w) = Str p -> p <> "" ->
  api_createTodo (api env) (Str p) (trim (todoInput (dom w))) false = Resolved todo ->
  (forall t, In t (todos (app w)) -> todo_id t <> todo_id todo) ->
  api_deleteTodo (api env') (Str p) (todo_id todo) = Resolved u ->
  todos (app (run (deleteTodo env' (todo_id todo)) (run (addTodo env) w))) = todos (app w) /\
  app (run (deleteTodo env' (todo_id todo)) (run (addTodo env) w)) = app w /\
  view_synced (run (deleteTodo env' (todo_id todo)) (run (addTodo env) w)).
Proof.
  intros Hink Hcur Hp Hadd Hfresh Hdel.
  rewrite (addTodo_proceeds env w p Hink Hcur Hp), Hadd, render_run.
  rewrite deleteTodo_run. cbn [app on_dom on_app log set_todos currentProject todos].
  rewrite Hcur, Hdel, render_run. simpl.
  assert (Hback : List.filter (fun t => negb (strict_eq (todo_id t) (todo_id todo)))
                    (todos (app w) ++ [todo]) = todos (app w)).
  { rewrite List.filter_app. simpl. unfold strict_eq at 2.
    rewrite bool_decide_eq_true_2 by reflexivity. simpl. rewrite app_nil_r.
    apply filter_keeps_all. intros t Ht. unfold strict_eq.
    rewrite bool_decide_eq_false_2; [reflexivity | apply Hfresh; exact Ht]. }
  rewrite Hback. repeat apply conj; try reflexivity.
  destruct w as [[cp ps ts cf] d h]. simpl in *. subst cp. reflexivity.
Qed.

Lemma addTodo_then_deleteTodo_witness :
  todos (app (run (deleteTodo Sample.up (Num 7))
                (run (addTodo Sample.up)
                   (on_dom (set_todoInput "Buy milk")
                      (on_app (set_todos [Sample.eggs]) Sample.in_work)))))
  = [Sample.eggs].
Proof.
  apply (addTodo_then_deleteTodo Sample.up Sample.up
           (on_dom (set_todoInput "Buy milk")
              (on_app (set_todos [Sample.eggs]) Sample.in_work))
           "1" Sample.milk tt); try reflexivity.
  - discriminate.
  - intros t [<-|[]]. discriminate.
Defined.

Lemma toggleTodo_resolved_app (env : Env) (id : value) (w : World) (todo updated : Todo) :
  List.find (fun t => strict_eq (todo_id t) id) (todos (app w)) = Some todo ->
  api_updateTodo (api env) (currentProject (app w)) id (negb (todo_completed todo))
  = Resolved updated ->
  app (run (toggleTodo env id) w)
  = set_todos (map (fun t => if strict_eq (todo_id t) id then updated else t)
                 (todos (app w))) (app w).
Proof.
  intros Hfind H. rewrite (toggleTodo_known env id w todo Hfind). simpl. rewrite H.
  reflexivity.
Qed.

(** X17: against an API that applies the patch it is sent, toggling an
    entry flips its [completed] and nothing else, and toggling it again
    gives back the list one started from (identifiers pairwise
    distinct). *)
Theorem toggleTodo_twice (env : Env) (w : World) (i : nat) (t : Todo) :
  unique_ids (todos (app w)) ->
  todos (app w) !! i = Some t ->
  applies_patch (api env) (todos (app w)) ->
  todos (app (run (toggleTodo env (todo_id t)) w))
  = <[i := {| todo_id := todo_id t; todo_text := todo_text t;
              todo_completed := negb (todo_completed t) |}]> (todos (app w)) /\
  todos (app (run (toggleTodo env (todo_id t)) (run (toggleTodo env (todo_id t)) w)))
  = todos (app w).
Proof.
  intros Huniq Hi Hpatch.
  assert (Hin : In t (todos (app w)))
    by (apply list_elem_of_In, list_elem_of_lookup; eauto).
  assert (Hlt : i < length (todos (app w))) by (eapply lookup_lt_Some; eassumption).
  set (t' := {| todo_id := todo_id t; todo_text := todo_text t;
                todo_completed := negb (todo_completed t) |}).
  pose proof (find_unique (todo_id t) _ i t Huniq Hi eq_refl) as Hfind.
  pose proof (toggleTodo_resolved_app env (todo_id t) w t t' Hfind
                (Hpatch _ t _ Hin)) as Happ.
  rewrite (swap_unique (todo_id t) t' _ i t Huniq Hi eq_refl) in Happ.
  split; [rewrite Happ; reflexivity|].
  assert (Hi' : todos (app (run (toggleTodo env (todo_id t)) w)) !! i = Some t').
  { rewrite Happ. simpl. apply list_lookup_insert_eq. exact Hlt. }
  assert (Huniq' : unique_ids (todos (app (run (toggleTodo env (todo_id t)) w)))).
  { rewrite Happ. unfold unique_ids in *. simpl.
    change (map todo_id ?l) with (todo_id <$> l) in *.
    rewrite list_fmap_insert. simpl.
    rewrite list_insert_id; [exact Huniq|].
    rewrite list_lookup_fmap, Hi. reflexivity. }
  pose proof (find_unique (todo_id t) _ i t' Huniq' Hi' eq_refl) as Hfind'.
  assert (Hreply : api_updateTodo (api env)
                     (currentProject (app (run (toggleTodo env (todo_id t)) w)))
                     (todo_id t) (negb (todo_completed t')) = Resolved t).
  { rewrite (Hpatch _ t _ Hin). simpl. rewrite negb_involutive. destruct t; reflexivity. }
  rewrite (toggleTodo_resolved_app env (todo_id t) _ t' t Hfind' Hreply). simpl.
  rewrite (swap_unique (todo_id t) t _ i t' Huniq' Hi' eq_refl).
  rewrite Happ. simpl. rewrite list_insert_insert_eq. apply list_insert_id. exact Hi.
Qed.

Lemma toggleTodo_twice_witness :
  todos (app (run (toggleTodo Sample.up (Num 7)) Sample.in_work)) = [Sample.milk_done] /\
  todos (app (run (toggleTodo Sample.up (Num 7))
                (run (toggleTodo Sample.up (Num 7)) Sample.in_work)))
  = [Sample.milk].
Proof.
  apply (toggleTodo_twice Sample.up Sample.in_work 0 Sample.milk).
  - unfold unique_ids. apply (bool_decide_unpack _). vm_compute. exact I.
  - reflexivity.
  - intros projectId t c [<-|[]]. reflexivity.
Defined.

(** *** The text [addTodo] sends *)

Lemma trimStart_split (s : ustring) :
  exists lead, s = lead ++ trimStart s /\ all_whitespace lead = true.
Proof.
  induction s as [|c s (lead & Heq & Hws)]; simpl.
  - exists []. split; reflexivity.
  - destruct (is_whitespace c) eqn:Hc.
    + exists (c :: lead). simpl. rewrite Hc, Hws.
      split; [f_equal; exact Heq | reflexivity].
    + exists []. split; reflexivity.
Qed.

Lemma trimEnd_split (s : ustring) :
  exists trail, s = trimEnd s ++ trail /\ all_whitespace trail = true.
Proof.
  induction s as [|c s (trail & Heq & Hws)]; simpl.
  - exists []. split; reflexivity.
  - destruct (trimEnd s) as [|c' r] eqn:Hr.
    + simpl in Heq. subst trail. destruct (is_whitespace c) eqn:Hc.
      * exists (c :: s). simpl. rewrite Hc, Hws. split; reflexivity.
      * exists s. split; [reflexivity | exact Hws].
    + exists trail. split; [simpl; f_equal; exact Heq | exact Hws].
Qed.

Lemma trimStart_first (s : ustring) (c : N) :
  first_unit (trimStart s) = Some c -> is_whitespace c = false.
Proof.
  induction s as [|x s IH]; simpl; [discriminate|].
  destruct (is_whitespace x) eqn:Hx; [exact IH|].
  simpl. intros [= <-]. exact Hx.
Qed.

Lemma trimEnd_first (s : ustring) (c : N) :
  first_unit s = Some c -> is_whitespace c = false -> first_unit (trimEnd s) = Some c.
Proof.
  destruct s as [|x s]; simpl; [discriminate|]. intros [= ->] Hc.
  destruct (trimEnd s); [rewrite Hc|]; reflexivity.
Qed.

Lemma trimEnd_last (s : ustring) (c : N) :
  last_unit (trimEnd s) = Some c -> is_whitespace c = false.
Proof.
  induction s as [|x s IH]; simpl; [discriminate|].
  destruct (trimEnd s) as [|c' r] eqn:Hr.
  - destruct (is_whitespace x) eqn:Hx; simpl; [discriminate|].
    intros [= <-]. exact Hx.
  - exact IH.
Qed.

(** [trim] takes the white space off both ends and nothing else. *)
Lemma trim_spec (s : ustring) :
  (exists lead trail, s = lead ++ trim s ++ trail /\
                      all_whitespace lead = true /\ all_whitespace trail = true) /\
  (forall c, first_unit (trim s) = Some c -> is_whitespace c = false) /\
  (forall c, last_unit (trim s) = Some c -> is_whitespace c = false).
Proof.
  unfold trim. split; [|split].
  - destruct (trimStart_split s) as (lead & Hs & Hlead).
    destruct (trimEnd_split (trimStart s)) as (trail & Ht & Htrail).
    exists lead, trail. split; [|split; assumption].
    rewrite <- Ht. exact Hs.
  - intros c Hc.
    destruct (trimStart s) as [|x r] eqn:Hr; [discriminate Hc|].
    assert (Hx : is_whitespace x = false)
      by (apply (trimStart_first s); rewrite Hr; reflexivity).
    rewrite (trimEnd_first (x :: r) x eq_refl Hx) in Hc.
    injection Hc as <-. exact Hx.
  - intros c. apply trimEnd_last.
Qed.

(** X18: whenever [addTodo] issues a request, it is a request to create, in
    the current project, a todo with [completed] false whose text is the
    content of the input box with the white space taken off both ends
    (every code unit [String.prototype.trim] strips, the Unicode spaces,
    line separators and the byte-order mark included): the text is not
    empty and neither starts nor ends with white space. *)
Theorem addTodo_sends_trimmed_text (env : Env) (w : World) (c : ApiCall)
    (rest : list Event) :
  history (run (addTodo env) w) = history w ++ Called c :: rest ->
  c = CreateTodo (currentProject (app w)) (trim (todoInput (dom w))) false /\
  falsy (currentProject (app w)) = false /\
  trim (todoInput (dom w)) <> [] /\
  (exists lead trail,
     todoInput (dom w) = lead ++ trim (todoInput (dom w)) ++ trail /\
     all_whitespace lead = true /\ all_whitespace trail = true) /\
  (forall ch, first_unit (trim (todoInput (dom w))) = Some ch -> is_whitespace ch = false) /\
  (forall ch, last_unit (trim (todoInput (dom w))) = Some ch -> is_whitespace ch = false).
Proof.
  intros H.
  destruct (trim_spec (todoInput (dom w))) as (Hsplit & Hfirst & Hlast).
  assert (Hguard : is_empty (trim (todoInput (dom w))) = false /\
                   falsy (currentProject (app w)) = false /\
                   c = CreateTodo (currentProject (app w)) (trim (todoInput (dom w))) false).
  { revert H. unfold run, addTodo, bind, document, this.
    destruct (is_empty (trim (todoInput (dom w)))) eqn:Ht;
      [intros H; exfalso; exact (no_growth _ _ _ H)|].
    destruct (falsy (currentProject (app w))) eqn:Hc;
      [intros H; exfalso; exact (no_growth _ _ _ H)|].
    simpl. unfold try_catch_finally, bind, showLoading, mutate, await, this, assign.
    simpl.
    destruct (api_createTodo (api env) (currentProject (app w))
                (trim (todoInput (dom w))) false); simpl; intros H.
    - rewrite <- app_assoc in H. apply app_inv_head in H. injection H as <- _. auto.
    - apply app_inv_head in H. injection H as <- _. auto. }
  destruct Hguard as (Ht & Hc & ->).
  repeat apply conj; try assumption; try reflexivity.
  intros Hnil. rewrite Hnil in Ht. discriminate Ht.
Qed.

Lemma addTodo_sends_trimmed_text_witness :
  CreateTodo (Str "1") "Buy bread" false
  = CreateTodo (currentProject (app Sample.in_work))
      (trim (todoInput (dom (on_dom (set_todoInput ([12288] ++ units "Buy bread" ++ [65279])%N)
                               Sample.in_work)))) false.
Proof.
  apply (addTodo_sends_trimmed_text Sample.up
           (on_dom (set_todoInput ([12288] ++ units "Buy bread" ++ [65279])%N) Sample.in_work)
           (CreateTodo (Str "1") "Buy bread" false) [Rendered]).
  reflexivity.
Defined.

(** ** The page never lags behind the list *)

Lemma view_synced_frame (w w' : World) :
  todos (app w') = todos (app w) -> currentFilter (app w') = currentFilter (app w) ->
  todoList (dom w') = todoList (dom w) -> taskCount (dom w') = taskCount (dom w) ->
  view_synced w -> view_synced w'.
Proof.
  intros Ht Hf Hl Hc [Hrows Hcount]. unfold view_synced, getFilteredTodos in *.
  rewrite Ht, Hf, Hl, Hc. split; assumption.
Qed.

Lemma view_synced_rendered (b : bool) (w : World) :
  view_synced (on_dom (set_loadingHidden b) (run render w)).
Proof. rewrite render_run. split; reflexivity. Qed.

Ltac framed := eapply view_synced_frame; [| | | |eassumption]; reflexivity.

Lemma changeProject_empty_selection_run (env : Env) (w : World) :
  projectSelect (dom w) = "" ->
  run (changeProject env) w = on_dom (set_todoContentHidden true) w.
Proof.
  intros Hsel. unfold run, changeProject, bind, document. rewrite Hsel. reflexivity.
Qed.

Lemma changeProject_keeps_sync (env : Env) (w : World) :
  view_synced w -> view_synced (run (changeProject env) w).
Proof.
  intros Hw. destruct (decide (projectSelect (dom w) = "")) as [Hsel|Hsel].
  - rewrite (changeProject_empty_selection_run env w Hsel). framed.
  - rewrite (changeProject_run env w Hsel).
    destruct (api_getTodos (api env) (projectSelect (dom w))).
    + apply view_synced_rendered.
    + framed.
Qed.

Lemma createProject_keeps_sync (env : Env) (w : World) :
  view_synced w -> view_synced (run (createProject env) w).
Proof.
  intros Hw. destruct (falsy (prompt env)) eqn:Hp.
  { unfold run, createProject. rewrite Hp. exact Hw. }
  destruct (api_createProject (api env) (prompt env)) as [project|] eqn:Hcreate.
  - rewrite (createProject_resolved_run env w project Hp Hcreate).
    eapply view_synced_frame;
      [reflexivity | reflexivity | reflexivity | reflexivity |].
    apply changeProject_keeps_sync. framed.
  - unfold run, createProject. rewrite Hp.
    unfold try_catch_finally, bind, showLoading, mutate, await. simpl. rewrite Hcreate.
    simpl. framed.
Qed.

Lemma deleteProject_keeps_sync (env : Env) (w : World) :
  view_synced w -> view_synced (run (deleteProject env) w).
Proof.
  intros Hw. unfold run, deleteProject, bind, this. simpl.
  destruct (falsy (currentProject (app w)) || negb (confirm env)); [exact Hw|].
  unfold try_catch_finally, bind, showLoading, mutate, await, this, assign. simpl.
  destruct (api_deleteProject (api env) (currentProject (app w))); simpl; framed.
Qed.

Lemma addTodo_keeps_sync (env : Env) (w : World) :
  view_synced w -> view_synced (run (addTodo env) w).
Proof.
  intros Hw. unfold run, addTodo, bind, document, this.
  destruct (is_empty (trim (todoInput (dom w))) || falsy (currentProject (app w)));
    [exact Hw|].
  unfold try_catch_finally, bind, showLoading, mutate, await, this, assign. simpl.
  destruct (api_createTodo (api env) (currentProject (app w))
              (trim (todoInput (dom w))) false); simpl.
  - split; simpl; [reflexivity | rewrite active_count_remaining; reflexivity].
  - framed.
Qed.

Lemma toggleTodo_keeps_sync (env : Env) (id : value) (w : World) :
  view_synced w -> view_synced (run (toggleTodo env id) w).
Proof.
  intros Hw.
  destruct (List.find (fun t => strict_eq (todo_id t) id) (todos (app w)))
    as [todo|] eqn:Hfind.
  - rewrite (toggleTodo_known env id w todo Hfind). simpl.
    destruct (api_updateTodo (api env) (currentProject (app w)) id
                (negb (todo_completed todo))).
    + apply view_synced_rendered.
    + framed.
  - unfold run, toggleTodo, bind, this. rewrite Hfind. exact Hw.
Qed.

Lemma deleteTodo_keeps_sync (env : Env) (id : value) (w : World) :
  view_synced w -> view_synced (run (deleteTodo env id) w).
Proof.
  intros Hw. rewrite deleteTodo_run.
  destruct (api_deleteTodo (api env) (currentProject (app w)) id).
  - apply view_synced_rendered.
  - framed.
Qed.



(** ** Error elements do not outlive their timers *)

Section BannerInvariant.
Context (P : World -> Prop).
Hypothesis P_mutate : forall f, plain f -> preserves P (mutate f).
Hypothesis P_assign : forall f, preserves P (assign f).
Hypothesis P_log : forall e w, P w -> P (log e w).
Hypothesis P_showError : forall message, preserves P (showError message).

Lemma P_await {A : Type} (c : ApiCall) (r : Reply A) : preserves P (await c r).
Proof. intros w Hw. apply P_log. exact Hw. Qed.

Ltac plainly := apply P_mutate; intros ?; repeat split; reflexivity.

Ltac banner_steps :=
  repeat first
    [ assumption | match goal with H : forall _, preserves _ _ |- _ => apply H end
    | apply preserves_ret | apply preserves_this | apply preserves_document
    | apply P_await | apply P_showError | apply P_assign | plainly
    | apply preserves_try
    | apply preserves_bind; [|intros ?] ].

Lemma P_render : preserves P render.
Proof.
  unfold render. banner_steps. intros w Hw. apply P_log. exact Hw.
Qed.

Lemma P_renderProjects : preserves P renderProjects.
Proof. unfold renderProjects. banner_steps. Qed.

Lemma P_select_value (v : string) : preserves P (select_value v).
Proof.
  unfold select_value. apply preserves_bind; [apply preserves_document|].
  intros d. destruct (existsb _ _); plainly.
Qed.

Lemma P_changeProject (env : Env) : preserves P (changeProject env).
Proof.
  pose proof P_render as Hr.
  unfold changeProject. apply preserves_bind; [apply preserves_document|].
  intros d. destruct (falsy (Str (projectSelect d))); [plainly|].
  unfold showLoading. banner_steps.
Qed.

Lemma P_step (env : Env) (a : Action) (w : World) :
  (forall ms w0, a = Wait ms -> P w0 -> P (elapse ms w0)) ->
  P w -> P (step env a w).
Proof.
  pose proof P_render as Hr. pose proof P_renderProjects as Hp.
  pose proof (P_changeProject env) as Hc. pose proof P_select_value as Hs.
  intros Hwait Hw. destruct a as [s| |v| | |filter|id|id|ms]; cbn [step]; unfold run.
  - apply (P_mutate (set_todoInput s)); [intros ?; repeat split; reflexivity | exact Hw].
  - revert w Hw. change (preserves P (addTodo env)).
    unfold addTodo. apply preserves_bind; [apply preserves_document | intros d].
    apply preserves_bind; [apply preserves_this | intros a0].
    destruct (is_empty (trim (todoInput d)) || falsy (currentProject a0));
      unfold showLoading; banner_steps.
  - revert w Hw. change (preserves P (select_value v ;; changeProject env)).
    banner_steps.
  - revert w Hw. change (preserves P (createProject env)).
    unfold createProject. destruct (falsy (prompt env)); unfold showLoading; banner_steps.
  - revert w Hw. change (preserves P (deleteProject env)).
    unfold deleteProject. apply preserves_bind; [apply preserves_this | intros a0].
    destruct (falsy (currentProject a0) || negb (confirm env));
      unfold showLoading; banner_steps.
  - revert w Hw. change (preserves P (setFilter filter)).
    unfold setFilter. banner_steps.
  - revert w Hw. change (preserves P (toggleTodo env id)).
    unfold toggleTodo. apply preserves_bind; [apply preserves_this | intros a0].
    destruct (List.find _ (todos a0)); unfold showLoading; banner_steps.
  - revert w Hw. change (preserves P (deleteTodo env id)).
    unfold deleteTodo, showLoading. banner_steps.
  - apply (Hwait ms w eq_refl Hw).
Qed.

Lemma P_loadProjects (env : Env) : preserves P (loadProjects env).
Proof.
  pose proof P_renderProjects as Hp.
  unfold loadProjects, showLoading. banner_steps.
Qed.

End BannerInvariant.

Lemma banners_timed_mutate (f : Dom -> Dom) : plain f -> preserves banners_timed (mutate f).
Proof.
  intros Hf w [Hcover Hdue]. unfold banners_timed in *. simpl.
  destruct (Hf (dom w)) as (-> & _ & -> & ->). split; assumption.
Qed.

Lemma banners_timed_showError (message : string) :
  preserves banners_timed (showError message).
Proof.
  intros w [Hcover Hdue]. rewrite showError_run. unfold banners_timed. simpl. split.
  - intros e He. apply in_app_or in He as [He|[<-|[]]].
    + destruct (Hcover e He) as (tm & Htm & Heq).
      exists tm. split; [apply in_or_app; left; exact Htm | exact Heq].
    + exists (timer_of (dom w)). split; [apply in_or_app; right; left|]; reflexivity.
  - apply Forall_app. split; [exact Hdue|].
    constructor; [simpl; lia | constructor].
Qed.

Lemma banners_timed_elapse (ms : Z) (w : World) :
  (0 <= ms)%Z -> banners_timed w -> banners_timed (elapse ms w).
Proof.
  intros Hms [Hcover Hdue]. unfold banners_timed, elapse. simpl. split.
  - intros e He. apply filter_In in He as [He Hkeep].
    apply negb_true_iff in Hkeep.
    destruct (Hcover e He) as (tm & Htm & Heq).
    exists tm. split; [|exact Heq].
    apply filter_In. split; [exact Htm|].
    apply negb_true_iff. destruct (due tm <=? now (dom w) + ms)%Z eqn:Hfired; [|reflexivity].
    exfalso. apply not_true_iff_false in Hkeep. apply Hkeep.
    apply existsb_exists. exists tm. split.
    + apply filter_In. split; assumption.
    + apply Nat.eqb_eq. exact Heq.
  - rewrite Forall_forall in *. intros tm Htm.
    apply list_elem_of_In, filter_In in Htm as [Htm _].
    specialize (Hdue tm (proj2 (list_elem_of_In _ _) Htm)). lia.
Qed.

Lemma banners_timed_step (env : Env) (a : Action) (w : World) :
  forward a -> banners_timed w -> banners_timed (step env a w).
Proof.
  intros Hfwd. apply P_step.
  - apply banners_timed_mutate.
  - intros f w0 Hw0. exact Hw0.
  - intros e w0 Hw0. exact Hw0.
  - apply banners_timed_showError.
  - intros ms w0 -> Hw0. apply banners_timed_elapse; assumption.
Qed.

Lemma banners_timed_session (script : list (Env * Action)) (w : World) :
  Forall (fun ea => forward (snd ea)) script ->
  banners_timed w -> banners_timed (session script w).
Proof.
  revert w. induction script as [|[env a] script IH]; intros w Hfwd Hw; [exact Hw|].
  apply Forall_cons in Hfwd as [Ha Hrest]. simpl.
  apply IH; [exact Hrest|]. apply banners_timed_step; assumption.
Qed.

Lemma banners_timed_cleared (w : World) :
  banners_timed w -> errors (dom (elapse 3000 w)) = [].
Proof.
  intros [Hcover Hdue]. unfold elapse. simpl.
  destruct (List.filter _ (errors (dom w))) as [|e es] eqn:Hleft; [reflexivity|].
  exfalso.
  assert (He : In e (List.filter
                       (fun e => negb (existsb (fun tm => removes tm =? node e)
                                         (List.filter
                                            (fun tm => (due tm <=? now (dom w) + 3000)%Z)
                                            (timers (dom w)))))
                       (errors (dom w)))) by (rewrite Hleft; left; reflexivity).
  apply filter_In in He as [He Hkeep]. apply negb_true_iff in Hkeep.
  destruct (Hcover e He) as (tm & Htm & Heq).
  apply not_true_iff_false in Hkeep. apply Hkeep.
  apply existsb_exists. exists tm. split.
  - apply filter_In. split; [exact Htm|]. apply Z.leb_le.
    rewrite Forall_forall in Hdue. apply Hdue, list_elem_of_In. exact Htm.
  - apply Nat.eqb_eq. exact Heq.
Qed.



(** ** The current project in a session *)



(** ** The theme *)

(** X22: whatever the root element's [data-theme] was (absent, 'light',
    'dark' or anything else), after [toggleTheme] it is 'dark' if it was
    'light' and 'light' otherwise; local storage holds the same value; and
    the button shows the moon exactly when the theme is 'light', the sun
    exactly when it is 'dark'. *)
Theorem toggleTheme_settles (c : Chrome) :
  (dataTheme (toggleTheme c) = Str "dark" <-> dataTheme c = Str "light") /\
  (dataTheme (toggleTheme c) = Str "light" <-> dataTheme c <> Str "light") /\
  dataTheme (toggleTheme c) <> dataTheme c /\
  storedTheme (toggleTheme c) = dataTheme (toggleTheme c) /\
  (themeIcon (toggleTheme c) = "fas fa-moon" <-> dataTheme (toggleTheme c) = Str "light") /\
  (themeIcon (toggleTheme c) = "fas fa-sun" <-> dataTheme (toggleTheme c) = Str "dark").
Proof.
  unfold toggleTheme, updateTheme, strict_eq. simpl.
  destruct (decide (dataTheme c = Str "light")) as [Hl|Hl].
  - rewrite (bool_decide_eq_true_2 _ Hl). simpl. rewrite Hl.
    repeat apply conj; try (split; intros; congruence); try reflexivity; congruence.
  - rewrite (bool_decide_eq_false_2 _ Hl). simpl.
    repeat apply conj; try (split; intros; congruence); try reflexivity; congruence.
Qed.

(** X23: toggling is a two-cycle once it has run: a third toggle gives what
    the first gave, and on a page whose theme is 'light' or 'dark' two
    toggles give back the theme one started from. *)
Theorem toggleTheme_cycle (c : Chrome) :
  toggleTheme (toggleTheme (toggleTheme c)) = toggleTheme c /\
  (dataTheme c = Str "light" \/ dataTheme c = Str "dark" ->
   dataTheme (toggleTheme (toggleTheme c)) = dataTheme c).
Proof.
  unfold toggleTheme, updateTheme, strict_eq. simpl.
  destruct (decide (dataTheme c = Str "light")) as [Hl|Hl].
  - rewrite (bool_decide_eq_true_2 _ Hl). simpl. split; [reflexivity|].
    intros _. symmetry. exact Hl.
  - rewrite (bool_decide_eq_false_2 _ Hl). simpl. split; [reflexivity|].
    intros [H|H]; [contradiction | symmetry; exact H].
Qed.

Lemma toggleTheme_cycle_witness :
  dataTheme (toggleTheme (toggleTheme
               {| dataTheme := Str "dark"; storedTheme := Null; themeIcon := "" |}))
  = Str "dark".
Proof.
  apply (proj2 (toggleTheme_cycle
                  {| dataTheme := Str "dark"; storedTheme := Null; themeIcon := "" |})).
  right. reflexivity.
Defined.

(** X24: the theme survives a reload.  On a fresh page whose storage is what
    [toggleTheme] left, the start-up code sets [data-theme] to the theme
    that was toggled to.  With nothing stored, or the empty string, it sets
    'light'; any other stored string is applied as it is.  Start-up writes
    neither the storage nor the icon. *)
Theorem theme_survives_reload (c fresh : Chrome) :
  (storedTheme fresh = storedTheme (toggleTheme c) ->
   dataTheme (loadTheme fresh) = dataTheme (toggleTheme c)) /\
  (storedTheme fresh = Null \/ storedTheme fresh = Str "" ->
   dataTheme (loadTheme fresh) = Str "light") /\
  (forall s, s <> "" -> storedTheme fresh = Str s -> dataTheme (loadTheme fresh) = Str s) /\
  storedTheme (loadTheme fresh) = storedTheme fresh /\
  themeIcon (loadTheme fresh) = themeIcon fresh.
Proof.
  repeat apply conj; try reflexivity.
  - intros H. unfold loadTheme. rewrite H.
    unfold toggleTheme, updateTheme. simpl.
    destruct (strict_eq (dataTheme c) (Str "light")); reflexivity.
  - intros [H|H]; unfold loadTheme; rewrite H; reflexivity.
  - intros s Hs H. unfold loadTheme. rewrite H. simpl.
    rewrite (bool_decide_eq_false_2 _ Hs). reflexivity.
Qed.

Lemma theme_survives_reload_witness :
  dataTheme (loadTheme {| dataTheme := Null; storedTheme := Str "dark"; themeIcon := "" |})
  = dataTheme (toggleTheme
                 {| dataTheme := Str "light"; storedTheme := Null; themeIcon := "" |}).
Proof.
  apply (proj1 (theme_survives_reload
                  {| dataTheme := Str "light"; storedTheme := Null; themeIcon := "" |}
                  {| dataTheme := Null; storedTheme := Str "dark"; themeIcon := "" |})).
  reflexivity.
Defined.
